(** * Python bindings of the psdparse library: model and properties

    This development embeds [src/bindings.cpp] (class [PythonPSD] and the
    properties registered in [PYBIND11_MODULE]) and proves properties of
    the embedded methods.

    Conventions of the embedding.
    - A C++ [int] is an integer of [Z] in the range of 32 bits
      ([fits_int]). The arithmetic the bindings do on [int] ([width * 4],
      [pitch * height], [++baseId], the shifts of the slice colour) is
      written with its wrap-around ([wrap32]), which is what the compiled
      code does where the language leaves signed overflow undefined.
    - A [uint8_t] is an integer of [Z]; storing a value into an array of
      [uint8_t] reduces it modulo 256 ([to_uint8]).
    - A method that throws returns [Throw] with the message of the
      exception, a [std::runtime_error] of the bindings or the exception
      of a constructor or of a renderer; a non-[const] method also returns
      the object after the call.
    - Memory is taken as sufficient: the creation of an array or of a
      vector fails by its size argument only.
    - [psd::PSDFile], the base class of [PythonPSD], belongs to the psdparse
      library, which the repository builds from [psdfile_krkrz/psdparse]
      and whose sources are not at hand. What the bindings use of it is
      gathered in the class [PSDFileBase]; the one base method whose effect
      the bindings rely on, [psd::PSDFile::clearData], is modelled from the
      specification. *)

From Stdlib Require Import ZArith.
From stdpp Require Import gmap strings list.

#[local] Set Warnings "-register-all".
#[local] Open Scope Z_scope.

(** ** Values handed to Python *)

(** The outcome of a method: the value returned, or the message of the
    exception that escapes it. *)
Inductive result (A : Type) : Type :=
  | Ok (a : A)
  | Throw (what : string).
Arguments Ok {A} a.
Arguments Throw {A} what.

Definition is_error {A} (r : result A) : bool :=
  match r with Ok _ => false | Throw _ => true end.

(** The Python objects the bindings build: [py::dict] keyed by strings or by
    integers, [py::list], [py::none] and the converted scalars. *)
Inductive PyValue : Type :=
  | PyNone
  | PyInt (z : Z)
  | PyBool (b : bool)
  | PyStr (s : string)
  | PyList (l : list PyValue)
  | PyDict (d : gmap string PyValue)
  | PyIntDict (d : gmap Z PyValue).

(** [py::array_t<uint8_t>]: a shape and the elements in row-major order. *)
Record ndarray : Type := mk_ndarray {
  shape : list Z;
  elems : list Z
}.

Definition to_uint8 (z : Z) : Z := z mod 256.

(** The range of a C++ [int]. *)
Definition fits_int (z : Z) : Prop := -2147483648 ≤ z ≤ 2147483647.

(** The value an [int] holds after an operation whose exact result is
    [z]: the result modulo 2^32, in the range of [int]. *)
Definition wrap32 (z : Z) : Z :=
  (z + 2147483648) mod 4294967296 - 2147483648.

(** ** The psdparse data the bindings read *)

Inductive ColorFormat : Type := BGRA_LE.

Inductive ImageMode : Type :=
  | IMAGE_MODE_IMAGE
  | IMAGE_MODE_MASK
  | IMAGE_MODE_MASKEDIMAGE.

Inductive LayerType : Type :=
  | LAYER_TYPE_NORMAL
  | LAYER_TYPE_FOLDER
  | LAYER_TYPE_HIDDEN.

(** The enumerators of [psd::BlendMode] that the bindings export. *)
Inductive BlendMode : Type :=
  | BLEND_MODE_NORMAL
  | BLEND_MODE_DARKEN
  | BLEND_MODE_MULTIPLY
  | BLEND_MODE_COLOR_BURN
  | BLEND_MODE_LINEAR_BURN
  | BLEND_MODE_LIGHTEN
  | BLEND_MODE_SCREEN
  | BLEND_MODE_COLOR_DODGE
  | BLEND_MODE_LINEAR_DODGE
  | BLEND_MODE_OVERLAY
  | BLEND_MODE_SOFT_LIGHT
  | BLEND_MODE_HARD_LIGHT
  | BLEND_MODE_VIVID_LIGHT
  | BLEND_MODE_LINEAR_LIGHT
  | BLEND_MODE_PIN_LIGHT
  | BLEND_MODE_HARD_MIX
  | BLEND_MODE_DIFFERENCE
  | BLEND_MODE_EXCLUSION
  | BLEND_MODE_DISSOLVE
  | BLEND_MODE_DARKER_COLOR
  | BLEND_MODE_LIGHTER_COLOR
  | BLEND_MODE_SUBTRACT
  | BLEND_MODE_DIVIDE.

#[global] Instance BlendMode_eq_dec : EqDecision BlendMode.
Proof. solve_decision. Defined.

Definition all_blend_modes : list BlendMode :=
  [ BLEND_MODE_NORMAL; BLEND_MODE_DARKEN; BLEND_MODE_MULTIPLY;
    BLEND_MODE_COLOR_BURN; BLEND_MODE_LINEAR_BURN; BLEND_MODE_LIGHTEN;
    BLEND_MODE_SCREEN; BLEND_MODE_COLOR_DODGE; BLEND_MODE_LINEAR_DODGE;
    BLEND_MODE_OVERLAY; BLEND_MODE_SOFT_LIGHT; BLEND_MODE_HARD_LIGHT;
    BLEND_MODE_VIVID_LIGHT; BLEND_MODE_LINEAR_LIGHT; BLEND_MODE_PIN_LIGHT;
    BLEND_MODE_HARD_MIX; BLEND_MODE_DIFFERENCE; BLEND_MODE_EXCLUSION;
    BLEND_MODE_DISSOLVE; BLEND_MODE_DARKER_COLOR; BLEND_MODE_LIGHTER_COLOR;
    BLEND_MODE_SUBTRACT; BLEND_MODE_DIVIDE ].

Record Header : Type := mk_Header {
  hd_width : Z;
  hd_height : Z;
  hd_channels : Z;
  hd_depth : Z;
  hd_mode : Z
}.

Record ChannelInfo : Type := mk_ChannelInfo {
  ch_id : Z;
  ch_length : Z
}.

Record LayerMask : Type := mk_LayerMask {
  lm_top : Z;
  lm_left : Z;
  lm_width : Z;
  lm_height : Z;
  lm_defaultColor : Z
}.

Record LayerCompInfo : Type := mk_LayerCompInfo {
  lci_id : Z;
  lci_offsetX : Z;
  lci_offsetY : Z;
  lci_isEnabled : bool
}.

(** [psd::LayerInfo]. The pointer [parent] designates an element of the
    layer list of the same document: it is kept as the position of that
    element, [None] standing for [nullptr]. The map [layerComps] is kept as
    the list of its entries in iteration order. *)
Record LayerInfo : Type := mk_LayerInfo {
  lay_top : Z;
  lay_left : Z;
  lay_bottom : Z;
  lay_right : Z;
  lay_width : Z;
  lay_height : Z;
  lay_opacity : Z;
  lay_fill_opacity : Z;
  lay_channels : list ChannelInfo;
  lay_blendMode : BlendMode;
  lay_layerType : LayerType;
  lay_flags : Z;
  lay_layerName : string;
  lay_layerNameUnicode : list Z;
  lay_clipping : Z;
  lay_layerId : Z;
  lay_parent : option nat;
  lay_layerComps : list (Z * LayerCompInfo);
  lay_layerMask : LayerMask
}.

Definition set_layerId (id : Z) (lay : LayerInfo) : LayerInfo :=
  {| lay_top := lay_top lay; lay_left := lay_left lay;
     lay_bottom := lay_bottom lay; lay_right := lay_right lay;
     lay_width := lay_width lay; lay_height := lay_height lay;
     lay_opacity := lay_opacity lay;
     lay_fill_opacity := lay_fill_opacity lay;
     lay_channels := lay_channels lay;
     lay_blendMode := lay_blendMode lay;
     lay_layerType := lay_layerType lay;
     lay_flags := lay_flags lay;
     lay_layerName := lay_layerName lay;
     lay_layerNameUnicode := lay_layerNameUnicode lay;
     lay_clipping := lay_clipping lay;
     lay_layerId := id;
     lay_parent := lay_parent lay;
     lay_layerComps := lay_layerComps lay;
     lay_layerMask := lay_layerMask lay |}.

Record SliceItem : Type := mk_SliceItem {
  sl_id : Z;
  sl_groupId : Z;
  sl_origin : Z;
  sl_type : Z;
  sl_left : Z;
  sl_top : Z;
  sl_right : Z;
  sl_bottom : Z;
  sl_colorA : Z;
  sl_colorR : Z;
  sl_colorG : Z;
  sl_colorB : Z;
  sl_isCellTextHtml : bool;
  sl_horizontalAlign : Z;
  sl_verticalAlign : Z;
  sl_associatedLayerId : Z;
  sl_name : string;
  sl_url : string;
  sl_target : string;
  sl_message : string;
  sl_altTag : string;
  sl_cellText : string
}.

Record SliceResource : Type := mk_SliceResource {
  sr_isEnabled : bool;
  sr_boundingTop : Z;
  sr_boundingLeft : Z;
  sr_boundingBottom : Z;
  sr_boundingRight : Z;
  sr_groupName : string;
  sr_slices : list SliceItem
}.

Record GuideItem : Type := mk_GuideItem {
  gd_location : Z;
  gd_direction : Z
}.

Record GridGuideResource : Type := mk_GridGuideResource {
  gg_isEnabled : bool;
  gg_horizontalGrid : Z;
  gg_verticalGrid : Z;
  gg_guides : list GuideItem
}.

Record LayerComp : Type := mk_LayerComp {
  lc_id : Z;
  lc_isRecordVisibility : bool;
  lc_isRecordPosition : bool;
  lc_isRecordAppearance : bool;
  lc_name : string;
  lc_comment : string
}.

(** The members of [psd::PSDFile] that the decoder fills: [imageData] is
    the pointer to the merged image block, [None] when the file has none. *)
Record Data : Type := mk_Data {
  header : Header;
  layerList : list LayerInfo;
  imageData : option (list Z);
  slice : SliceResource;
  gridGuide : GridGuideResource;
  layerComps : list LayerComp;
  lastAppliedCompId : Z
}.

Definition set_layerList (l : list LayerInfo) (d : Data) : Data :=
  {| header := header d; layerList := l; imageData := imageData d;
     slice := slice d; gridGuide := gridGuide d;
     layerComps := layerComps d;
     lastAppliedCompId := lastAppliedCompId d |}.

(** [psd::PSDFile]: the decoded data and the flag [isLoaded]. *)
Record PSDFile : Type := mk_PSDFile {
  data : Data;
  isLoaded : bool
}.

(** [PythonPSD]: the base object and the private copy of the input bytes. *)
Record PythonPSD : Type := mk_PythonPSD {
  base : PSDFile;
  fileData : list Z
}.

Definition emptyData : Data :=
  {| header := mk_Header 0 0 0 0 0;
     layerList := [];
     imageData := None;
     slice := mk_SliceResource false 0 0 0 0 "" [];
     gridGuide := mk_GridGuideResource false 0 0 [];
     layerComps := [];
     lastAppliedCompId := 0 |}.

#[global] Instance LayerMask_inhabited : Inhabited LayerMask :=
  populate (mk_LayerMask 0 0 0 0 0).

#[global] Instance LayerInfo_inhabited : Inhabited LayerInfo :=
  populate (mk_LayerInfo 0 0 0 0 0 0 0 0 [] BLEND_MODE_NORMAL
              LAYER_TYPE_NORMAL 0 "" [] 0 (-1) None [] inhabitant).

(** ** The base class *)

(** Modelled from the spec: the methods of [psd::PSDFile] that [PythonPSD]
    calls are defined in the psdparse library, whose sources are missing;
    they are the members of this class. The decoder [parse] works on the
    bytes between [begin] and [end] and on the data of the object: it
    returns its verdict, the number of bytes consumed (the position of
    [begin] after the call) and the data it has filled. The two renderers
    are methods of the object: they are given the buffer to fill and
    return it filled, with the data of the object after the call, or they
    fail, the specification having a channel that cannot be decoded abort
    the image or composite request that needs it. *)
Class PSDFileBase : Type := {
  blendModeCode : BlendMode -> Z;
  layerTypeCode : LayerType -> Z;
  isMaskChannel : ChannelInfo -> bool;
  isVisible : LayerInfo -> bool;
  isObsolete : LayerInfo -> bool;
  isTransparencyProtected : LayerInfo -> bool;
  isPixelDataIrrelevant : LayerInfo -> bool;
  wstring_to_string : list Z -> string;
  parse : list Z -> Data -> bool * nat * Data;
  processParsed : Data -> bool * Data;
  load : string -> PSDFile -> bool * PSDFile;
  getLayerImage :
    Data -> LayerInfo -> ColorFormat -> Z -> ImageMode -> list Z ->
    result (list Z) * Data;
  getMergedImage :
    Data -> ColorFormat -> Z -> list Z -> result (list Z) * Data
}.

(** Modelled from the spec: [psd::PSDFile::clearData] is defined in the
    psdparse library, whose sources are missing. The specification has the
    document model created empty and fully reset by a load request, with no
    loaded state left: the method returns the object to its state at
    creation. *)
Definition PSDFile_clearData (self : PSDFile) : PSDFile :=
  {| data := emptyData; isLoaded := false |}.

(** ** The methods of [PythonPSD] *)

Section PythonPSD.
Context `{!PSDFileBase}.

Definition with_base (b : PSDFile) (self : PythonPSD) : PythonPSD :=
  {| base := b; fileData := fileData self |}.

(** The object a Python caller gets from [PSD()]. *)
Definition new_PythonPSD : PythonPSD :=
  {| base := {| data := emptyData; isLoaded := false |}; fileData := [] |}.

Definition clearData (self : PythonPSD) : PythonPSD :=
  {| base := PSDFile_clearData (base self); fileData := [] |}.

Definition loadFromFile (self : PythonPSD) (filepath : string)
  : bool * PythonPSD :=
  let self := clearData self in
  let '(r, b) := load filepath (base self) in
  (r, with_base b self).

Definition loadFromBytes (self : PythonPSD) (bytes : list Z)
  : bool * PythonPSD :=
  let self := clearData self in
  let self := {| base := base self; fileData := bytes |} in
  let size := length (fileData self) in
  let '(r, consumed, d) := parse (fileData self) (data (base self)) in
  let self :=
    with_base {| data := d; isLoaded := isLoaded (base self) |} self in
  let self :=
    if r && bool_decide (consumed = size) then
      let '(ok, d') := processParsed (data (base self)) in
      with_base {| data := d'; isLoaded := ok |} self
    else self in
  let self := if negb (isLoaded (base self)) then clearData self else self in
  (isLoaded (base self), self).

(** Every value of the dictionary is an integral member of the header (or
    the size of the layer list): the dictionary is kept as a map to [Z]. *)
Definition getBasicInfo (self : PythonPSD) : gmap string Z :=
  let info : gmap string Z := ∅ in
  if negb (isLoaded (base self)) then info
  else
    let d := data (base self) in
    let info := <["width" := hd_width (header d)]> info in
    let info := <["height" := hd_height (header d)]> info in
    let info := <["channels" := hd_channels (header d)]> info in
    let info := <["depth" := hd_depth (header d)]> info in
    let info := <["color_mode" := hd_mode (header d)]> info in
    let info := <["layer_count" := Z.of_nat (length (layerList d))]> info in
    info.

(** The guard that opens each per-layer accessor. *)
Definition invalid_layer (self : PythonPSD) (layerNo : Z) : bool :=
  negb (isLoaded (base self))
  || (layerNo <? 0)
  || (layerNo >=? Z.of_nat (length (layerList (data (base self))))).

Definition invalid_layer_msg : string :=
  "Invalid layer number or no PSD data loaded".

Definition getLayerType (self : PythonPSD) (layerNo : Z) : result Z :=
  if invalid_layer self layerNo then Throw invalid_layer_msg
  else
    Ok (layerTypeCode
          (lay_layerType (layerList (data (base self)) !!! Z.to_nat layerNo))).

Definition getLayerName (self : PythonPSD) (layerNo : Z) : result string :=
  if invalid_layer self layerNo then Throw invalid_layer_msg
  else
    let lay := layerList (data (base self)) !!! Z.to_nat layerNo in
    match lay_layerNameUnicode lay with
    | _ :: _ => Ok (wstring_to_string (lay_layerNameUnicode lay))
    | [] => Ok (lay_layerName lay)
    end.

Definition convBlendModeToString (mode : BlendMode) : string :=
  match mode with
  | BLEND_MODE_NORMAL => "normal"
  | BLEND_MODE_DARKEN => "darken"
  | BLEND_MODE_MULTIPLY => "multiply"
  | BLEND_MODE_COLOR_BURN => "color_burn"
  | BLEND_MODE_LINEAR_BURN => "linear_burn"
  | BLEND_MODE_LIGHTEN => "lighten"
  | BLEND_MODE_SCREEN => "screen"
  | BLEND_MODE_COLOR_DODGE => "color_dodge"
  | BLEND_MODE_LINEAR_DODGE => "linear_dodge"
  | BLEND_MODE_OVERLAY => "overlay"
  | BLEND_MODE_SOFT_LIGHT => "soft_light"
  | BLEND_MODE_HARD_LIGHT => "hard_light"
  | BLEND_MODE_DIFFERENCE => "difference"
  | BLEND_MODE_EXCLUSION => "exclusion"
  | _ => "normal"
  end.

Definition layerCompDict (comp : LayerCompInfo) : PyValue :=
  let tmp : gmap string PyValue := ∅ in
  let tmp := <["id" := PyInt (lci_id comp)]> tmp in
  let tmp := <["offset_x" := PyInt (lci_offsetX comp)]> tmp in
  let tmp := <["offset_y" := PyInt (lci_offsetY comp)]> tmp in
  let tmp := <["enable" := PyBool (lci_isEnabled comp)]> tmp in
  PyDict tmp.

Definition getLayerInfo (self : PythonPSD) (layerNo : Z)
  : result (gmap string PyValue) :=
  let result : gmap string PyValue := ∅ in
  if invalid_layer self layerNo then Throw invalid_layer_msg
  else
    let layers := layerList (data (base self)) in
    let lay := layers !!! Z.to_nat layerNo in
    let result := <["top" := PyInt (lay_top lay)]> result in
    let result := <["left" := PyInt (lay_left lay)]> result in
    let result := <["bottom" := PyInt (lay_bottom lay)]> result in
    let result := <["right" := PyInt (lay_right lay)]> result in
    let result := <["width" := PyInt (lay_width lay)]> result in
    let result := <["height" := PyInt (lay_height lay)]> result in
    let result := <["opacity" := PyInt (lay_opacity lay)]> result in
    let result := <["fill_opacity" := PyInt (lay_fill_opacity lay)]> result in
    let hasMask := existsb isMaskChannel (lay_channels lay) in
    let result := <["mask" := PyBool hasMask]> result in
    let result :=
      <["type" := PyStr (convBlendModeToString (lay_blendMode lay))]> result in
    let result :=
      <["layer_type" := PyInt (layerTypeCode (lay_layerType lay))]> result in
    let result :=
      <["blend_mode" := PyInt (blendModeCode (lay_blendMode lay))]> result in
    let result := <["visible" := PyBool (isVisible lay)]> result in
    match getLayerName self layerNo with
    | Throw what => Throw what
    | Ok name =>
      let result := <["name" := PyStr name]> result in
      let result := <["clipping" := PyInt (lay_clipping lay)]> result in
      let result := <["layer_id" := PyInt (lay_layerId lay)]> result in
      let result := <["obsolete" := PyBool (isObsolete lay)]> result in
      let result :=
        <["transparency_protected" :=
            PyBool (isTransparencyProtected lay)]> result in
      let result :=
        <["pixel_data_irrelevant" :=
            PyBool (isPixelDataIrrelevant lay)]> result in
      let result :=
        match lay_parent lay with
        | Some p =>
          <["group_layer_id" := PyInt (lay_layerId (layers !!! p))]> result
        | None => result
        end in
      let result :=
        match lay_layerComps lay with
        | [] => result
        | _ :: _ =>
          let compDict :=
            foldl (fun (acc : gmap Z PyValue) comp_pair =>
                     let comp := snd comp_pair in
                     <[lci_id comp := layerCompDict comp]> acc)
                  ∅ (lay_layerComps lay) in
          <["layer_comp" := PyIntDict compDict]> result
        end in
      Ok result
    end.

(** The index [y * pitch + x * 4 + c], an expression of [int]. *)
Definition buffer_index (pitch y x c : Z) : Z :=
  wrap32 (wrap32 (wrap32 (y * pitch) + wrap32 (x * 4)) + c).

(** The loops that copy the rendered buffer into the array:
    [buf(y, x, c) = buffer[y * pitch + x * 4 + c]]. *)
Definition copy_to_array (height width pitch : Z) (buffer : list Z)
  : ndarray :=
  {| shape := [height; width; 4];
     elems :=
       y ← seqZ 0 height;
       x ← seqZ 0 width;
       c ← seqZ 0 4;
       [buffer !!! Z.to_nat (buffer_index pitch y x c)] |}.

(** [std::vector<uint8_t> buffer(n)] for [n] that is not negative: [n]
    elements, all zero. *)
Definition new_buffer (n : Z) : list Z := replicate (Z.to_nat n) 0.

(** The message of the [std::length_error] that the constructor of
    [std::vector] throws when the [int] it is given is negative, and so
    converts to a size above the largest a vector can have. *)
Definition vector_length_msg : string :=
  "cannot create std::vector larger than max_size()".

Definition with_data (d : Data) (self : PythonPSD) : PythonPSD :=
  with_base {| data := d; isLoaded := isLoaded (base self) |} self.

Definition dummyArray (mask : LayerMask) : ndarray :=
  {| shape := [1; 1; 4];
     elems := [ to_uint8 (lm_defaultColor mask);
                to_uint8 (lm_defaultColor mask);
                to_uint8 (lm_defaultColor mask);
                255 ] |}.

(** What the three branches on [mode] leave for the rest of the method:
    either the array already returned, or the region to render. *)
Inductive selection : Type :=
  | Returned (a : ndarray)
  | Region (imageMode : ImageMode) (x0 y0 width height : Z).

Definition select_region (lay : LayerInfo) (mode : string) : selection :=
  let mask := lay_layerMask lay in
  if decide (mode = "mask") then
    let width := lm_width mask in
    let height := lm_height mask in
    if (width <=? 0) || (height <=? 0) then Returned (dummyArray mask)
    else Region IMAGE_MODE_MASK (lm_left mask) (lm_top mask) width height
  else if decide (mode = "raw") then
    Region IMAGE_MODE_IMAGE
      (lay_left lay) (lay_top lay) (lay_width lay) (lay_height lay)
  else
    Region IMAGE_MODE_MASKEDIMAGE
      (lay_left lay) (lay_top lay) (lay_width lay) (lay_height lay).

Definition zero_size_msg : string := "Layer has zero width or height".

(** The end of [getLayerData], for a region of positive size: the buffer
    is created, filled by [getLayerImage] and copied into the array. *)
Definition render_layer (self : PythonPSD) (lay : LayerInfo)
    (imageMode : ImageMode) (width height : Z)
  : result ndarray * PythonPSD :=
  let pitch := wrap32 (width * 4) in
  let size := wrap32 (pitch * height) in
  if size <? 0 then (Throw vector_length_msg, self)
  else
    let buffer := new_buffer size in
    match getLayerImage (data (base self)) lay BGRA_LE pitch imageMode
            buffer with
    | (Throw what, d) => (Throw what, with_data d self)
    | (Ok buffer, d) =>
      (Ok (copy_to_array height width pitch buffer), with_data d self)
    end.

Definition getLayerData (self : PythonPSD) (layerNo : Z) (mode : string)
  : result ndarray * PythonPSD :=
  if invalid_layer self layerNo then (Throw invalid_layer_msg, self)
  else
    let lay := layerList (data (base self)) !!! Z.to_nat layerNo in
    match select_region lay mode with
    | Returned dummy => (Ok dummy, self)
    | Region imageMode _ _ width height =>
      if (width <=? 0) || (height <=? 0) then (Throw zero_size_msg, self)
      else render_layer self lay imageMode width height
    end.

(** The default value of the argument [mode]. *)
Definition default_mode : string := "maskedimage".

Definition not_loaded_msg : string := "No PSD data loaded".

Definition no_composite_msg : string :=
  "No composite image data available in the PSD file".

(** The message of the error of NumPy on the creation of an array one of
    whose dimensions is negative. [getLayerData] creates its array after
    its guard on the width and the height, [getBlend] has no such guard. *)
Definition negative_dimensions_msg : string :=
  "negative dimensions are not allowed".

Definition getBlend (self : PythonPSD) : result ndarray * PythonPSD :=
  if negb (isLoaded (base self)) then (Throw not_loaded_msg, self)
  else
    match imageData (data (base self)) with
    | None => (Throw no_composite_msg, self)
    | Some _ =>
      let width := hd_width (header (data (base self))) in
      let height := hd_height (header (data (base self))) in
      let pitch := wrap32 (width * 4) in
      let size := wrap32 (pitch * height) in
      if (height <? 0) || (width <? 0)
      then (Throw negative_dimensions_msg, self)
      else if size <? 0 then (Throw vector_length_msg, self)
      else
        let buffer := new_buffer size in
        match getMergedImage (data (base self)) BGRA_LE pitch buffer with
        | (Throw what, d) => (Throw what, with_data d self)
        | (Ok buffer, d) =>
          (Ok (copy_to_array height width pitch buffer), with_data d self)
        end
    end.

Definition sliceDict (item : SliceItem) : PyValue :=
  let d : gmap string PyValue := ∅ in
  let d := <["id" := PyInt (sl_id item)]> d in
  let d := <["group_id" := PyInt (sl_groupId item)]> d in
  let d := <["origin" := PyInt (sl_origin item)]> d in
  let d := <["type" := PyInt (sl_type item)]> d in
  let d := <["left" := PyInt (sl_left item)]> d in
  let d := <["top" := PyInt (sl_top item)]> d in
  let d := <["right" := PyInt (sl_right item)]> d in
  let d := <["bottom" := PyInt (sl_bottom item)]> d in
  let d :=
    <["color" :=
        PyInt (wrap32
                 (Z.lor (Z.lor (Z.lor (Z.shiftl (sl_colorA item) 24)
                                      (Z.shiftl (sl_colorR item) 16))
                               (Z.shiftl (sl_colorG item) 8))
                        (sl_colorB item)))]> d in
  let d := <["cell_text_is_html" := PyBool (sl_isCellTextHtml item)]> d in
  let d := <["horizontal_alignment" := PyInt (sl_horizontalAlign item)]> d in
  let d := <["vertical_alignment" := PyInt (sl_verticalAlign item)]> d in
  let d := <["associated_layer_id" := PyInt (sl_associatedLayerId item)]> d in
  let d := <["name" := PyStr (sl_name item)]> d in
  let d := <["url" := PyStr (sl_url item)]> d in
  let d := <["target" := PyStr (sl_target item)]> d in
  let d := <["message" := PyStr (sl_message item)]> d in
  let d := <["alt_tag" := PyStr (sl_altTag item)]> d in
  let d := <["cell_text" := PyStr (sl_cellText item)]> d in
  PyDict d.

Definition getSlices (self : PythonPSD) : result PyValue * PythonPSD :=
  if negb (isLoaded (base self)) then (Throw not_loaded_msg, self)
  else
    let sr := slice (data (base self)) in
    if negb (sr_isEnabled sr) then (Ok PyNone, self)
    else
      let result : gmap string PyValue := ∅ in
      let result := <["top" := PyInt (sr_boundingTop sr)]> result in
      let result := <["left" := PyInt (sr_boundingLeft sr)]> result in
      let result := <["bottom" := PyInt (sr_boundingBottom sr)]> result in
      let result := <["right" := PyInt (sr_boundingRight sr)]> result in
      let result := <["name" := PyStr (sr_groupName sr)]> result in
      let slicesList := sliceDict <$> sr_slices sr in
      let result := <["slices" := PyList slicesList]> result in
      (Ok (PyDict result), self).

Definition getGuides (self : PythonPSD) : result PyValue * PythonPSD :=
  if negb (isLoaded (base self)) then (Throw not_loaded_msg, self)
  else
    let gg := gridGuide (data (base self)) in
    if negb (gg_isEnabled gg) then (Ok PyNone, self)
    else
      let result : gmap string PyValue := ∅ in
      let result := <["horz_grid" := PyInt (gg_horizontalGrid gg)]> result in
      let result := <["vert_grid" := PyInt (gg_verticalGrid gg)]> result in
      let verticalGuides :=
        (fun guide => PyInt (gd_location guide))
          <$> filter (fun guide => gd_direction guide = 0) (gg_guides gg) in
      let horizontalGuides :=
        (fun guide => PyInt (gd_location guide))
          <$> filter (fun guide => gd_direction guide ≠ 0) (gg_guides gg) in
      let result := <["vertical" := PyList verticalGuides]> result in
      let result := <["horizontal" := PyList horizontalGuides]> result in
      (Ok (PyDict result), self).

Definition compDict (comp : LayerComp) : PyValue :=
  let d : gmap string PyValue := ∅ in
  let d := <["id" := PyInt (lc_id comp)]> d in
  let d := <["record_visibility" := PyBool (lc_isRecordVisibility comp)]> d in
  let d := <["record_position" := PyBool (lc_isRecordPosition comp)]> d in
  let d := <["record_appearance" := PyBool (lc_isRecordAppearance comp)]> d in
  let d := <["name" := PyStr (lc_name comp)]> d in
  let d := <["comment" := PyStr (lc_comment comp)]> d in
  PyDict d.

Definition getLayerComp (self : PythonPSD) : result PyValue * PythonPSD :=
  if negb (isLoaded (base self)) then (Throw not_loaded_msg, self)
  else
    let d := data (base self) in
    match layerComps d with
    | [] => (Ok PyNone, self)
    | _ :: _ =>
      let result : gmap string PyValue := ∅ in
      let result :=
        <["last_applied_id" := PyInt (lastAppliedCompId d)]> result in
      let compsList := compDict <$> layerComps d in
      let result := <["comps" := PyList compsList]> result in
      (Ok (PyDict result), self)
    end.

(** The first loop of [assignAutoIds]: the largest layer id, not below -1. *)
Definition find_max_id (layers : list LayerInfo) : Z :=
  foldl (fun minId layer =>
           if minId <? lay_layerId layer then lay_layerId layer else minId)
        (-1) layers.

(** The second loop: it walks the list with the counters [baseId] and
    [assigned], and returns the list with the new ids and the counters. *)
Fixpoint assign_loop (layers : list LayerInfo) (baseId assigned : Z)
  : list LayerInfo * Z * Z :=
  match layers with
  | [] => ([], baseId, assigned)
  | layer :: rest =>
    if lay_layerId layer =? -1 then
      let baseId := wrap32 (baseId + 1) in
      let layer := set_layerId baseId layer in
      let assigned := wrap32 (assigned + 1) in
      let '(rest, baseId, assigned) := assign_loop rest baseId assigned in
      (layer :: rest, baseId, assigned)
    else
      let '(rest, baseId, assigned) := assign_loop rest baseId assigned in
      (layer :: rest, baseId, assigned)
  end.

Definition assignAutoIds (self : PythonPSD) (baseId : Z)
  : result Z * PythonPSD :=
  if negb (isLoaded (base self)) then (Throw not_loaded_msg, self)
  else
    let d := data (base self) in
    let minId := find_max_id (layerList d) in
    let baseId := if baseId <? minId then minId else baseId in
    let '(layers, _, assigned) := assign_loop (layerList d) baseId 0 in
    (Ok assigned,
     with_base {| data := set_layerList layers d;
                  isLoaded := isLoaded (base self) |} self).

(** The default value of the argument [base_id]. *)
Definition default_base_id : Z := 0.

(** The read-only properties registered in the module: the entry of
    [getBasicInfo] when the dictionary contains the key, -1 otherwise. *)
Definition basic_property (key : string) (self : PythonPSD) : Z :=
  match getBasicInfo self !! key with
  | Some v => v
  | None => -1
  end.

Definition prop_width := basic_property "width".
Definition prop_height := basic_property "height".
Definition prop_channels := basic_property "channels".
Definition prop_depth := basic_property "depth".
Definition prop_color_mode := basic_property "color_mode".
Definition prop_layer_count := basic_property "layer_count".

(** The methods [get_layer_data_raw] and [get_layer_data_mask]. *)
Definition get_layer_data_raw (self : PythonPSD) (layerNo : Z) :=
  getLayerData self layerNo "raw".
Definition get_layer_data_mask (self : PythonPSD) (layerNo : Z) :=
  getLayerData self layerNo "mask".

End PythonPSD.

(** ** A reference instance of the base class

    The instance below is used to run the bindings on concrete inputs. *)

(** The value of a big-endian field. *)
Definition be_value (bs : list Z) : Z := foldl (fun acc b => acc * 256 + b) 0 bs.

Definition field (offset len : nat) (bytes : list Z) : list Z :=
  take len (drop offset bytes).

(** The magic signature, the four characters 8BPS. *)
Definition psd_signature : list Z := [56; 66; 80; 83].

Definition header_size : nat := 26.

(** Modelled from the spec: the header decoder of psdparse is missing.
    Section 4.3 of the specification has it read the signature
    (four bytes, equal to the expected literal), the version (two bytes, 1
    or 2), six reserved bytes, the channel count (1 to 56), the height and
    the width (four bytes each, positive and at most 30000 for version 1,
    300000 for version 2), the depth (1, 8, 16 or 32) and the colour mode
    (one of the eight modes), all big-endian. This decoder stops after the
    header: it consumes 26 bytes, and decodes no layer. *)
Definition ref_parse (bytes : list Z) (d : Data) : bool * nat * Data :=
  let version := be_value (field 4 2 bytes) in
  let channels := be_value (field 12 2 bytes) in
  let height := be_value (field 14 4 bytes) in
  let width := be_value (field 18 4 bytes) in
  let depth := be_value (field 22 2 bytes) in
  let mode := be_value (field 24 2 bytes) in
  let limit := if version =? 1 then 30000 else 300000 in
  if bool_decide (header_size ≤ length bytes)%nat
     && bool_decide (field 0 4 bytes = psd_signature)
     && ((version =? 1) || (version =? 2))
     && (1 <=? channels) && (channels <=? 56)
     && (0 <? height) && (height <=? limit)
     && (0 <? width) && (width <=? limit)
     && bool_decide (depth ∈ [1; 8; 16; 32])
     && bool_decide (mode ∈ [0; 1; 2; 3; 4; 7; 8; 9])
  then
    (true, header_size,
     {| header := mk_Header width height channels depth mode;
        layerList := layerList d; imageData := imageData d;
        slice := slice d; gridGuide := gridGuide d;
        layerComps := layerComps d;
        lastAppliedCompId := lastAppliedCompId d |})
  else (false, 0%nat, d).

(** The rank of an element in a list. *)
Fixpoint position {A} `{EqDecision A} (x : A) (l : list A) : Z :=
  match l with
  | [] => 0
  | y :: l => if decide (y = x) then 0 else 1 + position x l
  end.

Definition size_mismatch_msg : string := "ChannelSizeMismatch".

(** The instance keeps no channel bytes of the layers: its layer renderer
    leaves the colour bytes as they are and writes an opaque alpha. *)
Definition ref_render (buffer : list Z) : list Z :=
  imap (fun i b => if decide (i mod 4 = 3)%nat then 255 else b) buffer.

(** Modelled from the spec: the channel decoder of psdparse is missing.
    Section 4.2 of the specification has a raw channel fail with
    [ChannelSizeMismatch] when its length is not that of width x height
    samples. The instance checks the declared length of each channel of
    the layer, two bytes for the compression method and one byte a sample,
    over the mask for a mask channel and over the layer for the others. *)
Definition ref_channel_ok (lay : LayerInfo) (ch : ChannelInfo) : bool :=
  if (ch_id ch =? -2) || (ch_id ch =? -3)
  then ch_length ch
       =? 2 + lm_width (lay_layerMask lay) * lm_height (lay_layerMask lay)
  else ch_length ch =? 2 + lay_width lay * lay_height lay.

Definition ref_layer_image (d : Data) (lay : LayerInfo) (buffer : list Z)
  : result (list Z) * Data :=
  if forallb (ref_channel_ok lay) (lay_channels lay)
  then (Ok (ref_render buffer), d)
  else (Throw size_mismatch_msg, d).

(** Modelled from the spec: the decoder of the merged image is missing. The
    instance takes the merged image block as raw: the two bytes of the
    compression method, 0, then one plane of width x height bytes for each
    channel of the header, and fails with [ChannelSizeMismatch] on any
    other length. It interleaves the planes into the order blue, green,
    red, alpha, the alpha opaque, a document of fewer than three channels
    giving its first plane to the three colours. *)
Definition ref_merged_byte (d : Data) (bytes : list Z) (pitch i b : Z) : Z :=
  let width := hd_width (header d) in
  let samples := width * hd_height (header d) in
  let y := i / pitch in
  let x := (i mod pitch) / 4 in
  let c := (i mod pitch) mod 4 in
  if width <=? x then b
  else if c =? 3 then 255
  else
    let plane := if hd_channels (header d) <? 3 then 0 else 2 - c in
    bytes !!! Z.to_nat (2 + plane * samples + y * width + x).

Definition ref_merged_image (d : Data) (pitch : Z) (buffer : list Z)
  : result (list Z) * Data :=
  let samples := hd_width (header d) * hd_height (header d) in
  match imageData d with
  | Some bytes =>
    if bool_decide (take 2 bytes = [0; 0])
       && (Z.of_nat (length bytes)
           =? 2 + hd_channels (header d) * samples)
    then
      (Ok (imap (fun i b => ref_merged_byte d bytes pitch (Z.of_nat i) b)
             buffer), d)
    else (Throw size_mismatch_msg, d)
  | None => (Throw size_mismatch_msg, d)
  end.

#[local] Instance reference_base : PSDFileBase := {|
  blendModeCode := fun m => position m all_blend_modes;
  layerTypeCode := fun t =>
    match t with
    | LAYER_TYPE_NORMAL => 0
    | LAYER_TYPE_FOLDER => 1
    | LAYER_TYPE_HIDDEN => 2
    end;
  isMaskChannel := fun ch => (ch_id ch =? -2) || (ch_id ch =? -3);
  isVisible := fun lay => negb (Z.testbit (lay_flags lay) 1);
  isObsolete := fun lay => Z.testbit (lay_flags lay) 2;
  isTransparencyProtected := fun lay => Z.testbit (lay_flags lay) 0;
  isPixelDataIrrelevant := fun lay =>
    Z.testbit (lay_flags lay) 3 && Z.testbit (lay_flags lay) 4;
  wstring_to_string := fun w =>
    String.string_of_list_ascii
      ((fun z => Ascii.ascii_of_nat (Z.to_nat z)) <$> w);
  parse := ref_parse;
  processParsed := fun d => (true, d);
  load := fun _ b => (false, b);
  getLayerImage := fun d lay _ _ _ buffer => ref_layer_image d lay buffer;
  getMergedImage := fun d _ pitch buffer => ref_merged_image d pitch buffer
|}.

(** The header of a 2x2 RGB document, 8 bits per sample, 3 channels. *)
Definition header_2x2 : list Z :=
  [56; 66; 80; 83; 0; 1; 0; 0; 0; 0; 0; 0; 0; 3;
   0; 0; 0; 2; 0; 0; 0; 2; 0; 8; 0; 3].

(** A layer of the given size, id and blend mode, without a mask. *)
Definition sample_layer (width height id : Z) (m : BlendMode) : LayerInfo :=
  {| lay_top := 0; lay_left := 0; lay_bottom := height; lay_right := width;
     lay_width := width; lay_height := height;
     lay_opacity := 255; lay_fill_opacity := 255;
     lay_channels := [mk_ChannelInfo 0 (2 + width * height);
                      mk_ChannelInfo 1 (2 + width * height);
                      mk_ChannelInfo 2 (2 + width * height)];
     lay_blendMode := m; lay_layerType := LAYER_TYPE_NORMAL;
     lay_flags := 8; lay_layerName := "layer"; lay_layerNameUnicode := [];
     lay_clipping := 0; lay_layerId := id; lay_parent := None;
     lay_layerComps := []; lay_layerMask := inhabitant |}.

(** The merged image of a red 2x2 document: the method raw, a plane of
    red at 255 and the planes of green and blue at 0. *)
Definition red_2x2 : list Z :=
  [0; 0; 255; 255; 255; 255; 0; 0; 0; 0; 0; 0; 0; 0].

(** A layer one of whose channels declares a length that is not the one
    of its samples. *)
Definition corrupt_layer : LayerInfo :=
  {| lay_top := 0; lay_left := 0; lay_bottom := 2; lay_right := 2;
     lay_width := 2; lay_height := 2;
     lay_opacity := 255; lay_fill_opacity := 255;
     lay_channels := [mk_ChannelInfo 0 6; mk_ChannelInfo 1 5];
     lay_blendMode := BLEND_MODE_NORMAL;
     lay_layerType := LAYER_TYPE_NORMAL;
     lay_flags := 8; lay_layerName := "corrupt"; lay_layerNameUnicode := [];
     lay_clipping := 0; lay_layerId := 3; lay_parent := None;
     lay_layerComps := []; lay_layerMask := inhabitant |}.

(** A loaded document with the given header size, layers and merged
    image. *)
Definition sized_document (width height : Z) (layers : list LayerInfo)
    (img : option (list Z)) : PythonPSD :=
  {| base :=
       {| data :=
            {| header := mk_Header width height 3 8 3; layerList := layers;
               imageData := img; slice := slice emptyData;
               gridGuide := gridGuide emptyData; layerComps := [];
               lastAppliedCompId := 0 |};
          isLoaded := true |};
     fileData := [] |}.

(** A loaded 2x2 document with the given layers and merged image. *)
Definition sample_document (layers : list LayerInfo) (img : option (list Z))
  : PythonPSD :=
  {| base :=
       {| data :=
            {| header := mk_Header 2 2 3 8 3; layerList := layers;
               imageData := img; slice := slice emptyData;
               gridGuide := gridGuide emptyData; layerComps := [];
               lastAppliedCompId := 0 |};
          isLoaded := true |};
     fileData := header_2x2 |}.

(** A base that is not the library's, with a layer renderer that is not
    pure: it keeps in the data of the document, in the place of the id of
    the last applied comp, the count of the images it has rendered, and
    writes the count as the first byte of the image. It shows what the
    bindings do with a renderer that changes the document. *)
Definition counting_layer_image (d : Data) (buffer : list Z)
  : result (list Z) * Data :=
  (Ok (<[0%nat := lastAppliedCompId d]> buffer),
   {| header := header d; layerList := layerList d;
      imageData := imageData d; slice := slice d;
      gridGuide := gridGuide d; layerComps := layerComps d;
      lastAppliedCompId := lastAppliedCompId d + 1 |}).

Definition counting_base : PSDFileBase := {|
  blendModeCode := @blendModeCode reference_base;
  layerTypeCode := @layerTypeCode reference_base;
  isMaskChannel := @isMaskChannel reference_base;
  isVisible := @isVisible reference_base;
  isObsolete := @isObsolete reference_base;
  isTransparencyProtected := @isTransparencyProtected reference_base;
  isPixelDataIrrelevant := @isPixelDataIrrelevant reference_base;
  wstring_to_string := @wstring_to_string reference_base;
  parse := ref_parse;
  processParsed := fun d => (true, d);
  load := fun _ b => (false, b);
  getLayerImage := fun d _ _ _ _ buffer => counting_layer_image d buffer;
  getMergedImage := fun d _ pitch buffer => ref_merged_image d pitch buffer
|}.

(** ** Notions of the specification *)

(** The symbolic name of each of the 23 blend modes of the specification,
    spelled as the bindings spell the names they report (lower case, words
    joined by an underscore). *)
Definition blend_mode_name (m : BlendMode) : string :=
  match m with
  | BLEND_MODE_NORMAL => "normal"
  | BLEND_MODE_DARKEN => "darken"
  | BLEND_MODE_MULTIPLY => "multiply"
  | BLEND_MODE_COLOR_BURN => "color_burn"
  | BLEND_MODE_LINEAR_BURN => "linear_burn"
  | BLEND_MODE_LIGHTEN => "lighten"
  | BLEND_MODE_SCREEN => "screen"
  | BLEND_MODE_COLOR_DODGE => "color_dodge"
  | BLEND_MODE_LINEAR_DODGE => "linear_dodge"
  | BLEND_MODE_OVERLAY => "overlay"
  | BLEND_MODE_SOFT_LIGHT => "soft_light"
  | BLEND_MODE_HARD_LIGHT => "hard_light"
  | BLEND_MODE_VIVID_LIGHT => "vivid_light"
  | BLEND_MODE_LINEAR_LIGHT => "linear_light"
  | BLEND_MODE_PIN_LIGHT => "pin_light"
  | BLEND_MODE_HARD_MIX => "hard_mix"
  | BLEND_MODE_DIFFERENCE => "difference"
  | BLEND_MODE_EXCLUSION => "exclusion"
  | BLEND_MODE_DISSOLVE => "dissolve"
  | BLEND_MODE_DARKER_COLOR => "darker_color"
  | BLEND_MODE_LIGHTER_COLOR => "lighter_color"
  | BLEND_MODE_SUBTRACT => "subtract"
  | BLEND_MODE_DIVIDE => "divide"
  end.

(** The modes that have a case of their own in [convBlendModeToString]. *)
Definition named_modes : list BlendMode :=
  [ BLEND_MODE_NORMAL; BLEND_MODE_DARKEN; BLEND_MODE_MULTIPLY;
    BLEND_MODE_COLOR_BURN; BLEND_MODE_LINEAR_BURN; BLEND_MODE_LIGHTEN;
    BLEND_MODE_SCREEN; BLEND_MODE_COLOR_DODGE; BLEND_MODE_LINEAR_DODGE;
    BLEND_MODE_OVERLAY; BLEND_MODE_SOFT_LIGHT; BLEND_MODE_HARD_LIGHT;
    BLEND_MODE_DIFFERENCE; BLEND_MODE_EXCLUSION ].

(** The ids of the layers, in file order. *)
Definition layer_ids (layers : list LayerInfo) : list Z :=
  lay_layerId <$> layers.


(** The number of layers without an id. *)
Definition unassigned (layers : list LayerInfo) : nat :=
  length (filter (fun lay => lay_layerId lay = -1) layers).

(** The index is in the valid layer range of the document. *)
Definition valid_index (self : PythonPSD) (layerNo : Z) : Prop :=
  0 ≤ layerNo < Z.of_nat (length (layerList (data (base self)))).

(** The layer a valid index designates. *)
Definition layer_at (self : PythonPSD) (layerNo : Z) : LayerInfo :=
  layerList (data (base self)) !!! Z.to_nat layerNo.

(** The keys of the dictionary of [getBasicInfo] on a loaded document. *)
Definition basic_info_keys : gset string :=
  {[ "width"; "height"; "channels"; "depth"; "color_mode"; "layer_count" ]}.

(** The keys every dictionary of [getLayerInfo] has. *)
Definition layer_info_keys : gset string :=
  {[ "top"; "left"; "bottom"; "right"; "width"; "height"; "opacity";
     "fill_opacity"; "mask"; "type"; "layer_type"; "blend_mode"; "visible";
     "name"; "clipping"; "layer_id"; "obsolete"; "transparency_protected";
     "pixel_data_irrelevant" ]}.

(** A loaded document with two folders' worth of resources: two slices,
    three guides and two layer comps, and a layer inside a group. *)
Definition sample_slice (id a r g b : Z) (name : string) : SliceItem :=
  {| sl_id := id; sl_groupId := 0; sl_origin := 1; sl_type := 1;
     sl_left := 0; sl_top := 0; sl_right := 2; sl_bottom := 2;
     sl_colorA := a; sl_colorR := r; sl_colorG := g; sl_colorB := b;
     sl_isCellTextHtml := false; sl_horizontalAlign := 0;
     sl_verticalAlign := 0; sl_associatedLayerId := -1;
     sl_name := name; sl_url := ""; sl_target := ""; sl_message := "";
     sl_altTag := ""; sl_cellText := "" |}.

Definition sample_group_layer : LayerInfo :=
  {| lay_top := 0; lay_left := 0; lay_bottom := 2; lay_right := 2;
     lay_width := 2; lay_height := 2;
     lay_opacity := 255; lay_fill_opacity := 255;
     lay_channels := [mk_ChannelInfo 0 6; mk_ChannelInfo (-2) 4];
     lay_blendMode := BLEND_MODE_SCREEN; lay_layerType := LAYER_TYPE_NORMAL;
     lay_flags := 8; lay_layerName := "child";
     lay_layerNameUnicode := [99; 104];
     lay_clipping := 0; lay_layerId := 11; lay_parent := Some 1%nat;
     lay_layerComps :=
       [ (1, mk_LayerCompInfo 1 0 0 true);
         (2, mk_LayerCompInfo 2 3 4 false) ];
     lay_layerMask := mk_LayerMask 0 0 1 2 255 |}.

Definition sample_resources : PythonPSD :=
  {| base :=
       {| data :=
            {| header := mk_Header 2 2 3 8 3;
               layerList :=
                 [ sample_group_layer;
                   sample_layer 0 0 (-1) BLEND_MODE_NORMAL ];
               imageData := None;
               slice :=
                 mk_SliceResource true 0 0 2 2 "group"
                   [ sample_slice 1 16 32 48 64 "a";
                     sample_slice 2 127 255 255 255 "b" ];
               gridGuide :=
                 mk_GridGuideResource true 576 576
                   [ mk_GuideItem 10 0; mk_GuideItem 20 1;
                     mk_GuideItem 30 0 ];
               layerComps :=
                 [ mk_LayerComp 1 true false false "first" "";
                   mk_LayerComp 2 true true true "second" "note" ];
               lastAppliedCompId := 2 |};
          isLoaded := true |};
     fileData := [] |}.

(** The first id the second loop can write: it is not below -1, the base
    id, or any id of the document. *)
Definition first_free (layers : list LayerInfo) (baseId : Z) : Z :=
  Z.max baseId (find_max_id layers).

(** The ids that [int] can hold: when neither the number of layers
    without an id, nor the base id or an id of the document raised by that
    number, goes beyond the largest [int], the ids that the second loop
    computes are exact. *)
Definition ids_in_range (layers : list LayerInfo) (baseId : Z) : Prop :=
  Z.of_nat (unassigned layers) ≤ 2147483647
  ∧ baseId + Z.of_nat (unassigned layers) ≤ 2147483647
  ∧ ∀ x, x ∈ layer_ids layers →
         x + Z.of_nat (unassigned layers) ≤ 2147483647.

(** The rendering a mode asks for: the image mode, the width and the
    height, those of the mask in the mask mode and those of the layer in
    the raw mode and in every other mode. *)
Definition requested_region (lay : LayerInfo) (mode : string)
  : ImageMode * Z * Z :=
  if decide (mode = "mask") then
    (IMAGE_MODE_MASK, lm_width (lay_layerMask lay),
     lm_height (lay_layerMask lay))
  else if decide (mode = "raw") then
    (IMAGE_MODE_IMAGE, lay_width lay, lay_height lay)
  else (IMAGE_MODE_MASKEDIMAGE, lay_width lay, lay_height lay).

(** The array of the given height and width that holds, in order, the
    first height x width x 4 bytes of a buffer. *)
Definition array_of_buffer (height width : Z) (buffer : list Z) : ndarray :=
  {| shape := [height; width; 4];
     elems :=
       (fun k => buffer !!! k)
         <$> seq 0 (Z.to_nat height * (Z.to_nat width * 4)) |}.

(** What a method hands over once a renderer has answered: the array of
    the buffer the renderer has filled, or the error of the renderer, and
    the object with the data the renderer has left. *)
Definition delivered (self : PythonPSD) (height width : Z)
    (answer : result (list Z) * Data) : result ndarray * PythonPSD :=
  match answer with
  | (Ok buffer, d) => (Ok (array_of_buffer height width buffer),
                       with_data d self)
  | (Throw what, d) => (Throw what, with_data d self)
  end.

Section Notions.
Context `{!PSDFileBase}.

(** What a caller observes on the object just created (or just cleared):
    every accessor answers as on a document that is not loaded. *)
Definition observed_unloaded (self : PythonPSD) : Prop :=
  getBasicInfo self = ∅
  ∧ (∀ i, getLayerType self i = Throw invalid_layer_msg)
  ∧ (∀ i, getLayerName self i = Throw invalid_layer_msg)
  ∧ (∀ i, getLayerInfo self i = Throw invalid_layer_msg)
  ∧ (∀ i mode, getLayerData self i mode = (Throw invalid_layer_msg, self))
  ∧ getBlend self = (Throw not_loaded_msg, self)
  ∧ getSlices self = (Throw not_loaded_msg, self)
  ∧ getGuides self = (Throw not_loaded_msg, self)
  ∧ getLayerComp self = (Throw not_loaded_msg, self)
  ∧ (∀ b, assignAutoIds self b = (Throw not_loaded_msg, self)).

(** Modelled from the spec: section 5 of the specification has the
    compositing of a layer pure once the document is decoded. Said of
    [getLayerImage], which is missing: a call leaves the data of the
    object as they are. *)
Definition renderer_pure : Prop :=
  ∀ d lay format pitch imageMode buffer,
    (getLayerImage d lay format pitch imageMode buffer).2 = d.

End Notions.

(** ** Properties *)

Section Properties.
Context `{!PSDFileBase}.

Lemma invalid_layer_false (self : PythonPSD) (layerNo : Z) :
  invalid_layer self layerNo = false
  ↔ isLoaded (base self) = true ∧ valid_index self layerNo.
Proof.
  unfold invalid_layer, valid_index.
  destruct (isLoaded (base self)); simpl.
  - destruct (Z.ltb_spec layerNo 0), (Z.geb_spec layerNo
      (Z.of_nat (length (layerList (data (base self)))))); simpl;
      split; try done; intros [_ ?]; lia.
  - split; [done | intros [? _]; done].
Qed.

Lemma invalid_layer_true (self : PythonPSD) (layerNo : Z) :
  invalid_layer self layerNo = true
  ↔ isLoaded (base self) = false ∨ layerNo < 0
    ∨ Z.of_nat (length (layerList (data (base self)))) ≤ layerNo.
Proof.
  unfold invalid_layer.
  destruct (isLoaded (base self)); simpl.
  - destruct (Z.ltb_spec layerNo 0), (Z.geb_spec layerNo
      (Z.of_nat (length (layerList (data (base self)))))); simpl;
      split; try done; try (intros _; right; lia).
    intros [? | [? | ?]]; [done | lia | lia].
  - split; [by left | done].
Qed.

Lemma invalid_layer_unloaded (self : PythonPSD) (layerNo : Z) :
  isLoaded (base self) = false → invalid_layer self layerNo = true.
Proof. intros Hl. apply invalid_layer_true. by left. Qed.

Lemma clearData_new (self : PythonPSD) : clearData self = new_PythonPSD.
Proof. reflexivity. Qed.

(** A load from bytes answers [true] exactly when the decoder accepts the
    bytes, consumes all of them, and the post-processing succeeds. *)
Lemma loadFromBytes_true_iff (self : PythonPSD) (bytes : list Z) :
  (loadFromBytes self bytes).1 = true
  ↔ (parse bytes emptyData).1.1 = true
    ∧ (parse bytes emptyData).1.2 = length bytes
    ∧ (processParsed (parse bytes emptyData).2).1 = true.
Proof.
  unfold loadFromBytes. simpl.
  destruct (parse bytes emptyData) as [[r consumed] d]. simpl.
  destruct r; simpl.
  - case_bool_decide; simpl.
    + destruct (processParsed d) as [ok d']. simpl.
      destruct ok; simpl; split; try done; intros (_ & _ & ?); done.
    + split; [done | intros (_ & ? & _); done].
  - split; [done | intros (? & _); done].
Qed.

Lemma loadFromBytes_failure (self : PythonPSD) (bytes : list Z) :
  (loadFromBytes self bytes).1 = false →
  loadFromBytes self bytes = (false, new_PythonPSD).
Proof.
  unfold loadFromBytes. simpl.
  destruct (parse bytes emptyData) as [[r consumed] d]. simpl.
  destruct (r && bool_decide (consumed = length bytes)); simpl.
  - destruct (processParsed d) as [ok d']. simpl.
    destruct ok; simpl; done.
  - done.
Qed.

Lemma unloaded_observed (self : PythonPSD) :
  isLoaded (base self) = false → observed_unloaded self.
Proof.
  intros Hl. unfold observed_unloaded.
  unfold getBasicInfo, getLayerType, getLayerName, getLayerInfo,
    getLayerData, getBlend, getSlices, getGuides, getLayerComp,
    assignAutoIds.
  rewrite Hl. cbn [negb].
  repeat split; try done;
    intros i; try intros mode; by rewrite invalid_layer_unloaded.
Qed.

(** C2: when a load from bytes fails (the decoder rejects the bytes, or it
    does not consume all of them, or the post-processing fails), the call
    answers [false] and leaves the object unloaded and empty, whatever it
    held before: every accessor then answers as on an unloaded document,
    so that nothing of the partially built model is observable. *)
Theorem load_failure_leaves_unloaded (self : PythonPSD) (bytes : list Z) :
  (parse bytes emptyData).1.1 = false
  ∨ (parse bytes emptyData).1.2 ≠ length bytes
  ∨ (processParsed (parse bytes emptyData).2).1 = false →
  (loadFromBytes self bytes).1 = false
  ∧ isLoaded (base (loadFromBytes self bytes).2) = false
  ∧ data (base (loadFromBytes self bytes).2) = emptyData
  ∧ fileData (loadFromBytes self bytes).2 = []
  ∧ observed_unloaded (loadFromBytes self bytes).2.
Proof.
  intros Hfail.
  assert (Hr : (loadFromBytes self bytes).1 = false).
  { destruct ((loadFromBytes self bytes).1) eqn:E; [| done].
    apply loadFromBytes_true_iff in E as (E1 & E2 & E3).
    destruct Hfail as [Hf | [Hf | Hf]]; congruence. }
  rewrite (loadFromBytes_failure _ _ Hr). simpl.
  do 4 (split; [done |]). by apply unloaded_observed.
Qed.

(** C1 (amended): a load from bytes whose parse fails does not keep the
    document loaded before it: the call answers [false], the object is
    left unloaded and empty, and the header, layers and resources of the
    former document are no longer observable. *)
Theorem failed_load_discards_previous (self : PythonPSD) (bytes : list Z) :
  isLoaded (base self) = true →
  (parse bytes emptyData).1.1 = false →
  loadFromBytes self bytes = (false, new_PythonPSD)
  ∧ getBasicInfo self !! "width" = Some (hd_width (header (data (base self))))
  ∧ getBasicInfo (loadFromBytes self bytes).2 !! "width" = None
  ∧ observed_unloaded (loadFromBytes self bytes).2.
Proof.
  intros Hl Hfail.
  assert (Hr : (loadFromBytes self bytes).1 = false).
  { destruct ((loadFromBytes self bytes).1) eqn:E; [| done].
    apply loadFromBytes_true_iff in E as (E1 & _). congruence. }
  rewrite (loadFromBytes_failure _ _ Hr). simpl.
  split; [done |]. split.
  - unfold getBasicInfo. rewrite Hl. simpl. by simplify_map_eq.
  - split; [done |]. by apply unloaded_observed.
Qed.

(** C10: on an object with no document loaded, [getBasicInfo] throws
    nothing and returns the empty dictionary, each of the six read-only
    properties is -1, and each per-layer accessor throws. *)
Theorem unloaded_basic_info (self : PythonPSD) :
  isLoaded (base self) = false →
  getBasicInfo self = ∅
  ∧ prop_width self = -1
  ∧ prop_height self = -1
  ∧ prop_channels self = -1
  ∧ prop_depth self = -1
  ∧ prop_color_mode self = -1
  ∧ prop_layer_count self = -1
  ∧ (∀ i, getLayerType self i = Throw invalid_layer_msg)
  ∧ (∀ i, getLayerName self i = Throw invalid_layer_msg)
  ∧ (∀ i, getLayerInfo self i = Throw invalid_layer_msg)
  ∧ (∀ i mode, getLayerData self i mode = (Throw invalid_layer_msg, self)).
Proof.
  intros Hl.
  destruct (unloaded_observed self Hl) as (Hinfo & Ht & Hn & Hi & Hd & _).
  unfold prop_width, prop_height, prop_channels, prop_depth,
    prop_color_mode, prop_layer_count, basic_property.
  rewrite Hinfo. repeat split; done.
Qed.

Lemma not_valid_index (self : PythonPSD) (layerNo : Z) :
  ¬ valid_index self layerNo
  ↔ layerNo < 0 ∨ Z.of_nat (length (layerList (data (base self)))) ≤ layerNo.
Proof. unfold valid_index. lia. Qed.

Lemma invalid_layer_true' (self : PythonPSD) (layerNo : Z) :
  invalid_layer self layerNo = true
  ↔ isLoaded (base self) = false ∨ ¬ valid_index self layerNo.
Proof. rewrite invalid_layer_true, not_valid_index. done. Qed.

Lemma getLayerName_valid (self : PythonPSD) (layerNo : Z) :
  invalid_layer self layerNo = false →
  ∃ name, getLayerName self layerNo = Ok name.
Proof.
  intros Hv. unfold getLayerName. rewrite Hv.
  destruct (lay_layerNameUnicode _); eauto.
Qed.

Lemma select_region_mask (lay : LayerInfo) :
  select_region lay "mask"
  = if (lm_width (lay_layerMask lay) <=? 0)
       || (lm_height (lay_layerMask lay) <=? 0)
    then Returned (dummyArray (lay_layerMask lay))
    else Region IMAGE_MODE_MASK (lm_left (lay_layerMask lay))
           (lm_top (lay_layerMask lay)) (lm_width (lay_layerMask lay))
           (lm_height (lay_layerMask lay)).
Proof. reflexivity. Qed.

Lemma select_region_raw (lay : LayerInfo) :
  select_region lay "raw"
  = Region IMAGE_MODE_IMAGE (lay_left lay) (lay_top lay) (lay_width lay)
      (lay_height lay).
Proof. reflexivity. Qed.

Lemma select_region_other (lay : LayerInfo) (mode : string) :
  mode ≠ "mask" → mode ≠ "raw" →
  select_region lay mode
  = Region IMAGE_MODE_MASKEDIMAGE (lay_left lay) (lay_top lay)
      (lay_width lay) (lay_height lay).
Proof.
  intros Hm Hr. unfold select_region.
  destruct (decide (mode = "mask")); [done |].
  destruct (decide (mode = "raw")); done.
Qed.

Lemma nonpositive_size (width height : Z) :
  (width <=? 0) || (height <=? 0) = true ↔ width ≤ 0 ∨ height ≤ 0.
Proof. rewrite orb_true_iff, !Z.leb_le. done. Qed.

Lemma positive_size (width height : Z) :
  (width <=? 0) || (height <=? 0) = false ↔ 0 < width ∧ 0 < height.
Proof. rewrite orb_false_iff, !Z.leb_gt. done. Qed.

(** *** Arithmetic of [int] *)

Lemma wrap32_fits (z : Z) : fits_int z → wrap32 z = z.
Proof.
  unfold fits_int, wrap32. intros Hz. rewrite Z.mod_small by lia. lia.
Qed.

Lemma wrap32_range (z : Z) : fits_int (wrap32 z).
Proof.
  unfold fits_int, wrap32.
  pose proof (Z.mod_pos_bound (z + 2147483648) 4294967296). lia.
Qed.

(** Adding to a wrapped value and wrapping is wrapping the exact sum. *)
Lemma wrap32_add (a b : Z) : wrap32 (wrap32 a + b) = wrap32 (a + b).
Proof.
  unfold wrap32.
  replace ((a + 2147483648) mod 4294967296 - 2147483648 + b + 2147483648)
    with ((a + 2147483648) mod 4294967296 + b) by lia.
  rewrite Zplus_mod_idemp_l. do 2 f_equal. lia.
Qed.

(** *** The copy loops *)

Lemma bind_singleton_fmap {A B} (f : A → B) (l : list A) :
  l ≫= (fun x => [f x]) = f <$> l.
Proof. induction l as [| x l IH]; [done |]. simpl. by f_equal. Qed.

Lemma bind_fmap {A B C} (h : A → B) (f : B → list C) (l : list A) :
  (h <$> l) ≫= f = l ≫= (fun i => f (h i)).
Proof. induction l as [| x l IH]; [done |]. simpl. by f_equal. Qed.

Lemma bind_blocks {B} (g : nat → B) (m n off : nat) :
  seq 0 n ≫= (fun i => g <$> seq (off + i * m) m) = g <$> seq off (n * m).
Proof.
  induction n as [| n IH]; [done |].
  rewrite seq_S, bind_app, IH. simpl.
  rewrite app_nil_r, <- fmap_app. f_equal.
  replace (m + n * m)%nat with (n * m + m)%nat by lia.
  rewrite seq_app. done.
Qed.

Lemma seqZ_from_0 (n : Z) : seqZ 0 n = Z.of_nat <$> seq 0 (Z.to_nat n).
Proof.
  unfold seqZ. apply list_fmap_ext. intros _ i _. lia.
Qed.

Lemma bind_seqZ {B} (f : Z → list B) (n : Z) :
  seqZ 0 n ≫= f = seq 0 (Z.to_nat n) ≫= (fun i => f (Z.of_nat i)).
Proof. by rewrite seqZ_from_0, bind_fmap. Qed.

Lemma bind_ext_in {A B} (f g : A → list B) (l : list A) :
  (∀ x, x ∈ l → f x = g x) → l ≫= f = l ≫= g.
Proof.
  intros Hfg. induction l as [| x l IH]; [done |].
  simpl. rewrite Hfg by (apply elem_of_cons; by left). f_equal.
  apply IH. intros y Hy. apply Hfg, elem_of_cons. by right.
Qed.

Lemma bind_length {A B} (f : A → list B) (l : list A) (k : nat) :
  (∀ x, length (f x) = k) → length (l ≫= f) = (length l * k)%nat.
Proof.
  intros Hk. induction l as [| x l IH]; [done |].
  simpl. rewrite length_app, Hk. f_equal. exact IH.
Qed.

(** Whatever the pitch, the loops write height x width x 4 elements. *)
Lemma copy_to_array_length (height width pitch : Z) (buffer : list Z) :
  length (elems (copy_to_array height width pitch buffer))
  = (Z.to_nat height * (Z.to_nat width * 4))%nat.
Proof.
  unfold copy_to_array. cbn [elems].
  rewrite (bind_length _ _ (Z.to_nat width * 4)).
  - by rewrite length_seqZ.
  - intros y. rewrite (bind_length _ _ 4).
    + by rewrite length_seqZ.
    + intros x. by rewrite (bind_length _ _ 1).
Qed.

(** Inside a region whose bytes are counted by an [int], the index is
    computed without overflow. *)
Lemma buffer_index_fits (height width : Z) (y x c : nat) :
  0 < width → fits_int (width * 4 * height) →
  (y < Z.to_nat height)%nat → (x < Z.to_nat width)%nat → (c < 4)%nat →
  Z.to_nat (buffer_index (width * 4) (Z.of_nat y) (Z.of_nat x) (Z.of_nat c))
  = (0 + y * (Z.to_nat width * 4) + x * 4 + c)%nat.
Proof.
  intros Hw Hfits Hy Hx Hc. unfold fits_int in Hfits.
  assert (Hrow : Z.of_nat y * (width * 4) + width * 4 ≤ width * 4 * height)
    by nia.
  assert (Hrow0 : 0 ≤ Z.of_nat y * (width * 4)) by nia.
  unfold buffer_index.
  rewrite (wrap32_fits (Z.of_nat y * (width * 4)))
    by (unfold fits_int; lia).
  rewrite (wrap32_fits (Z.of_nat x * 4)) by (unfold fits_int; lia).
  rewrite (wrap32_fits (Z.of_nat y * (width * 4) + Z.of_nat x * 4))
    by (unfold fits_int; lia).
  rewrite (wrap32_fits (_ + _)) by (unfold fits_int; lia).
  nia.
Qed.

(** With the pitch of the bindings, four times the width, and a region
    whose bytes are counted by an [int], the loops read the buffer from
    its first byte on, in order. *)
Lemma copy_to_array_elems (height width : Z) (buffer : list Z) :
  0 ≤ width → fits_int (width * 4 * height) →
  copy_to_array height width (width * 4) buffer
  = array_of_buffer height width buffer.
Proof.
  intros Hw Hfits. unfold copy_to_array, array_of_buffer. f_equal.
  destruct (decide (width = 0)) as [-> | Hw0].
  { change (Z.to_nat 0) with 0%nat.
    rewrite Nat.mul_0_l, Nat.mul_0_r. simpl.
    rewrite bind_seqZ.
    induction (seq 0 (Z.to_nat height)) as [| y l IH]; [done |].
    simpl. exact IH. }
  rewrite bind_seqZ.
  rewrite <- (bind_blocks (fun k => buffer !!! k)
                (Z.to_nat width * 4) (Z.to_nat height) 0).
  apply bind_ext_in. intros y Hy. apply elem_of_seq in Hy.
  rewrite bind_seqZ.
  rewrite <- (bind_blocks (fun k => buffer !!! k) 4 (Z.to_nat width)
                (0 + y * (Z.to_nat width * 4))).
  apply bind_ext_in. intros x Hx. apply elem_of_seq in Hx.
  rewrite bind_seqZ.
  change (Z.to_nat 4) with 4%nat.
  rewrite (bind_singleton_fmap
             (fun c => buffer !!! Z.to_nat
                (buffer_index (width * 4) (Z.of_nat y) (Z.of_nat x)
                   (Z.of_nat c)))).
  replace (seq (0 + y * (Z.to_nat width * 4) + x * 4) 4)
    with (Nat.add (0 + y * (Z.to_nat width * 4) + x * 4) <$> seq 0 4)
    by (rewrite fmap_add_seq; f_equal; lia).
  rewrite <- list_fmap_compose.
  apply list_fmap_ext. intros i c Hc. apply lookup_seq in Hc as [-> Hc].
  simpl. f_equal.
  rewrite (buffer_index_fits height width y x i) by (done || lia). lia.
Qed.

(** *** The end of [getLayerData] and of [getBlend] *)

Lemma region_size_fits (width height : Z) :
  0 ≤ width → 0 ≤ height → fits_int (width * 4 * height) →
  wrap32 (wrap32 (width * 4) * height) = width * 4 * height
  ∧ (height ≠ 0 → wrap32 (width * 4) = width * 4).
Proof.
  intros Hw Hh Hfits. unfold fits_int in Hfits.
  destruct (decide (height = 0)) as [-> | Hh0].
  - split; [| done]. rewrite !Z.mul_0_r. reflexivity.
  - assert (Hp : wrap32 (width * 4) = width * 4)
      by (apply wrap32_fits; unfold fits_int; nia).
    split; [| done]. rewrite Hp. by apply wrap32_fits.
Qed.

Lemma render_layer_fits (self : PythonPSD) (lay : LayerInfo)
    (imageMode : ImageMode) (width height : Z) :
  0 < width → 0 < height → fits_int (width * 4 * height) →
  render_layer self lay imageMode width height
  = delivered self height width
      (getLayerImage (data (base self)) lay BGRA_LE (width * 4) imageMode
         (replicate (Z.to_nat (width * 4 * height)) 0)).
Proof.
  intros Hw Hh Hfits. unfold render_layer.
  destruct (region_size_fits width height) as [Hsize Hpitch];
    [lia | lia | done |].
  rewrite Hsize, Hpitch by lia.
  assert (Hpos : (width * 4 * height <? 0) = false)
    by (apply Z.ltb_ge; nia).
  rewrite Hpos. unfold new_buffer, delivered.
  destruct (getLayerImage _ _ _ _ _ _) as [[buffer | what] d]; [| done].
  by rewrite copy_to_array_elems by (done || lia).
Qed.

Lemma with_data_same (self : PythonPSD) : with_data (data (base self)) self = self.
Proof. by destruct self as [[d l] f]. Qed.

Lemma render_layer_pure (self : PythonPSD) (lay : LayerInfo)
    (imageMode : ImageMode) (width height : Z) :
  renderer_pure → (render_layer self lay imageMode width height).2 = self.
Proof.
  intros Hpure. unfold render_layer.
  destruct (wrap32 _ <? 0); [done |].
  pose proof (Hpure (data (base self)) lay BGRA_LE (wrap32 (width * 4))
                imageMode (new_buffer (wrap32 (wrap32 (width * 4) * height))))
    as Hd.
  destruct (getLayerImage _ _ _ _ _ _) as [[buffer | what] d];
    simpl in Hd; subst d; apply with_data_same.
Qed.

(** Under the purity of the renderer no call of [getLayerData] changes the
    object. *)
Lemma getLayerData_state (self : PythonPSD) (layerNo : Z) (mode : string) :
  renderer_pure → (getLayerData self layerNo mode).2 = self.
Proof.
  intros Hpure. unfold getLayerData.
  destruct (invalid_layer self layerNo); [done |].
  destruct (select_region _ mode) as [dummy | im x0 y0 w h]; [done |].
  destruct ((w <=? 0) || (h <=? 0)); [done |].
  by apply render_layer_pure.
Qed.

(** [getLayerData] on a loaded document and a valid index, by the region
    that the mode asks for. *)
Lemma getLayerData_region (self : PythonPSD) (layerNo : Z) (mode : string) :
  invalid_layer self layerNo = false →
  let lay := layer_at self layerNo in
  getLayerData self layerNo mode
  = if decide (mode = "mask") then
      if (lm_width (lay_layerMask lay) <=? 0)
         || (lm_height (lay_layerMask lay) <=? 0)
      then (Ok (dummyArray (lay_layerMask lay)), self)
      else render_layer self lay IMAGE_MODE_MASK
             (lm_width (lay_layerMask lay)) (lm_height (lay_layerMask lay))
    else if (lay_width lay <=? 0) || (lay_height lay <=? 0)
         then (Throw zero_size_msg, self)
         else render_layer self lay
                (if decide (mode = "raw") then IMAGE_MODE_IMAGE
                 else IMAGE_MODE_MASKEDIMAGE)
                (lay_width lay) (lay_height lay).
Proof.
  intros Hi lay. unfold getLayerData. rewrite Hi.
  fold (layer_at self layerNo). fold lay. unfold select_region.
  destruct (decide (mode = "mask")) as [-> | Hm].
  - destruct ((lm_width _ <=? 0) || (lm_height _ <=? 0)) eqn:Hsz; [done |].
    by rewrite Hsz.
  - destruct (decide (mode = "raw")); done.
Qed.

(** C7 (amended): [getLayerType], [getLayerName] and [getLayerInfo] throw
    exactly when the document is not loaded or the index is outside the
    layer range. [getLayerData] throws the same error in these cases, and
    the error of the zero size when the mode is not the mask mode and the
    layer has a width or a height that is not positive, and leaves the
    object as it is in both. When the bytes of the region that the mode
    asks for are counted by an [int], it throws in no other case than an
    error of [getLayerImage] on that region. When the renderer leaves the
    object as it is, so does every call of [getLayerData]. *)
Theorem layer_accessor_failures
    (self : PythonPSD) (layerNo : Z) (mode : string) :
  (is_error (getLayerType self layerNo) = true
   ↔ isLoaded (base self) = false ∨ ¬ valid_index self layerNo)
  ∧ (is_error (getLayerName self layerNo) = true
     ↔ isLoaded (base self) = false ∨ ¬ valid_index self layerNo)
  ∧ (is_error (getLayerInfo self layerNo) = true
     ↔ isLoaded (base self) = false ∨ ¬ valid_index self layerNo)
  ∧ (isLoaded (base self) = false ∨ ¬ valid_index self layerNo →
     getLayerData self layerNo mode = (Throw invalid_layer_msg, self))
  ∧ (isLoaded (base self) = true → valid_index self layerNo →
     mode ≠ "mask" →
     lay_width (layer_at self layerNo) ≤ 0
     ∨ lay_height (layer_at self layerNo) ≤ 0 →
     getLayerData self layerNo mode = (Throw zero_size_msg, self))
  ∧ (isLoaded (base self) = true → valid_index self layerNo →
     let lay := layer_at self layerNo in
     let '(imageMode, width, height) := requested_region lay mode in
     fits_int (width * 4 * height) →
     (is_error (getLayerData self layerNo mode).1 = true
      ↔ (mode ≠ "mask" ∧ (lay_width lay ≤ 0 ∨ lay_height lay ≤ 0))
        ∨ (0 < width ∧ 0 < height
           ∧ is_error
               (getLayerImage (data (base self)) lay BGRA_LE (width * 4)
                  imageMode
                  (replicate (Z.to_nat (width * 4 * height)) 0)).1
             = true)))
  ∧ (renderer_pure → (getLayerData self layerNo mode).2 = self).
Proof.
  rewrite <- !invalid_layer_true'.
  split_and!.
  - unfold getLayerType. destruct (invalid_layer self layerNo); done.
  - unfold getLayerName. destruct (invalid_layer self layerNo); [done |].
    destruct (lay_layerNameUnicode _); done.
  - unfold getLayerInfo.
    destruct (invalid_layer self layerNo) eqn:Hv; [done |].
    destruct (getLayerName_valid _ _ Hv) as [name ->]. done.
  - intros Hv. unfold getLayerData. by rewrite Hv.
  - intros Hl Hv Hm Hsz.
    assert (Hi : invalid_layer self layerNo = false)
      by (by apply invalid_layer_false).
    rewrite (getLayerData_region _ _ _ Hi). cbn zeta.
    rewrite decide_False by done. apply nonpositive_size in Hsz.
    by rewrite Hsz.
  - intros Hl Hv lay.
    assert (Hi : invalid_layer self layerNo = false)
      by (by apply invalid_layer_false).
    rewrite (getLayerData_region _ _ _ Hi). cbn zeta. fold lay.
    unfold requested_region.
    assert (Hdel : ∀ h w answer,
              is_error (delivered self h w answer).1 = is_error answer.1).
    { intros h w [[buffer | what] d]; done. }
    destruct (decide (mode = "mask")) as [-> | Hm].
    + intros Hfits.
      destruct ((lm_width _ <=? 0) || (lm_height _ <=? 0)) eqn:Hsz.
      * apply nonpositive_size in Hsz. simpl.
        split; [done | intros [[? _] | (? & ? & _)]; [done | lia]].
      * apply positive_size in Hsz as [Hw Hh].
        rewrite render_layer_fits, Hdel by done.
        split; [by right | intros [[? _] | (_ & _ & ?)]; done].
    + assert (Hfit : fits_int (lay_width lay * 4 * lay_height lay) →
                is_error
                  (if (lay_width lay <=? 0) || (lay_height lay <=? 0)
                   then (Throw zero_size_msg, self)
                   else render_layer self lay
                          (if decide (mode = "raw") then IMAGE_MODE_IMAGE
                           else IMAGE_MODE_MASKEDIMAGE)
                          (lay_width lay) (lay_height lay)).1 = true
                ↔ (mode ≠ "mask"
                   ∧ (lay_width lay ≤ 0 ∨ lay_height lay ≤ 0))
                  ∨ (0 < lay_width lay ∧ 0 < lay_height lay
                     ∧ is_error
                         (getLayerImage (data (base self)) lay BGRA_LE
                            (lay_width lay * 4)
                            (if decide (mode = "raw") then IMAGE_MODE_IMAGE
                             else IMAGE_MODE_MASKEDIMAGE)
                            (replicate
                               (Z.to_nat
                                  (lay_width lay * 4 * lay_height lay)) 0)).1
                       = true)).
      { intros Hfits.
        destruct ((lay_width lay <=? 0) || (lay_height lay <=? 0)) eqn:Hsz.
        - apply nonpositive_size in Hsz. simpl. split; [by left | done].
        - apply positive_size in Hsz as [Hw Hh].
          rewrite render_layer_fits, Hdel by done.
          split; [by right | intros [[_ ?] | (_ & _ & ?)]; [lia | done]]. }
      destruct (decide (mode = "raw")); exact Hfit.
  - apply getLayerData_state.
Qed.

(** C5: on a loaded document and a valid index, the mask mode on a layer
    whose mask has a width or a height that is not positive (a layer
    without a mask carries a mask record of zero size) throws nothing and
    returns an array of shape 1x1x4 whose pixel is the default colour of
    the mask three times, then 255. *)
Theorem mask_placeholder (self : PythonPSD) (layerNo : Z) :
  isLoaded (base self) = true →
  valid_index self layerNo →
  lm_width (lay_layerMask (layer_at self layerNo)) ≤ 0
  ∨ lm_height (lay_layerMask (layer_at self layerNo)) ≤ 0 →
  let defaultColor := lm_defaultColor (lay_layerMask (layer_at self layerNo)) in
  getLayerData self layerNo "mask"
  = (Ok {| shape := [1; 1; 4];
           elems := [ to_uint8 defaultColor; to_uint8 defaultColor;
                      to_uint8 defaultColor; 255 ] |}, self)
  ∧ (0 ≤ defaultColor ≤ 255 →
     (getLayerData self layerNo "mask").1
     = Ok {| shape := [1; 1; 4];
             elems := [defaultColor; defaultColor; defaultColor; 255] |}).
Proof.
  intros Hl Hv Hsz dc.
  assert (Hi : invalid_layer self layerNo = false)
    by (by apply invalid_layer_false).
  assert (Hd : getLayerData self layerNo "mask"
               = (Ok (dummyArray (lay_layerMask (layer_at self layerNo))),
                  self)).
  { unfold getLayerData. rewrite Hi, select_region_mask.
    apply nonpositive_size in Hsz. fold (layer_at self layerNo).
    by rewrite Hsz. }
  rewrite Hd. split; [done |].
  intros Hrange. simpl. unfold dummyArray, to_uint8. fold dc.
  by rewrite Z.mod_small by lia.
Qed.


(** C9: a mode string that is neither the mask mode nor the raw mode is
    handled as the default mode, maskedimage: the call returns what the
    call in the default mode returns and no error is thrown for the mode
    string. On a loaded document and a valid index, the layer having a
    positive width and height and bytes counted by an [int], the result is
    the masked image of the layer: the array of the layer's height and
    width that holds the bytes [getLayerImage] writes in the image mode
    of the masked image, in the format BGRA, for rows of 4 x width bytes,
    or the error of that rendering. When the width or the height of the
    layer is not positive the error is the one of the zero size. *)
Theorem other_mode_is_maskedimage
    (self : PythonPSD) (layerNo : Z) (mode : string) :
  mode ≠ "mask" → mode ≠ "raw" →
  getLayerData self layerNo mode = getLayerData self layerNo default_mode
  ∧ (isLoaded (base self) = true → valid_index self layerNo →
     let lay := layer_at self layerNo in
     0 < lay_width lay → 0 < lay_height lay →
     fits_int (lay_width lay * 4 * lay_height lay) →
     getLayerData self layerNo mode
     = delivered self (lay_height lay) (lay_width lay)
         (getLayerImage (data (base self)) lay BGRA_LE (lay_width lay * 4)
            IMAGE_MODE_MASKEDIMAGE
            (replicate (Z.to_nat (lay_width lay * 4 * lay_height lay)) 0)))
  ∧ (isLoaded (base self) = true → valid_index self layerNo →
     lay_width (layer_at self layerNo) ≤ 0
     ∨ lay_height (layer_at self layerNo) ≤ 0 →
     getLayerData self layerNo mode = (Throw zero_size_msg, self)).
Proof.
  intros Hm Hr.
  assert (Hmode : ∀ m, m ≠ "mask" → m ≠ "raw" →
            getLayerData self layerNo m
            = if invalid_layer self layerNo
              then (Throw invalid_layer_msg, self)
              else if (lay_width (layer_at self layerNo) <=? 0)
                      || (lay_height (layer_at self layerNo) <=? 0)
                   then (Throw zero_size_msg, self)
                   else render_layer self (layer_at self layerNo)
                          IMAGE_MODE_MASKEDIMAGE
                          (lay_width (layer_at self layerNo))
                          (lay_height (layer_at self layerNo))).
  { intros m Hm' Hr'. unfold getLayerData.
    destruct (invalid_layer self layerNo); [done |].
    by rewrite select_region_other. }
  split_and!.
  - rewrite (Hmode mode Hm Hr). by rewrite (Hmode default_mode).
  - intros Hl Hv lay Hw Hh Hfits. rewrite (Hmode mode Hm Hr).
    assert (Hi : invalid_layer self layerNo = false)
      by (by apply invalid_layer_false).
    rewrite Hi. fold lay.
    assert (Hsz : (lay_width lay <=? 0) || (lay_height lay <=? 0) = false)
      by (by apply positive_size).
    rewrite Hsz. by apply render_layer_fits.
  - intros Hl Hv Hsz. rewrite (Hmode mode Hm Hr).
    assert (Hi : invalid_layer self layerNo = false)
      by (by apply invalid_layer_false).
    rewrite Hi. apply nonpositive_size in Hsz. by rewrite Hsz.
Qed.

(** C6 (amended): [getBlend] throws the error of the unloaded document when
    no document is loaded, and the error of the missing composite image
    when the loaded document has no merged image. Otherwise, when the
    width and height of the header are positive and the bytes of the
    canvas, 4 x width x height, are counted by an [int], it returns the
    array of the height and width of the header that holds the bytes
    [getMergedImage] writes in the format BGRA for rows of 4 x width
    bytes, or throws the error of that rendering when it fails. *)
Theorem getBlend_cases (self : PythonPSD) :
  (isLoaded (base self) = false →
   getBlend self = (Throw not_loaded_msg, self))
  ∧ (isLoaded (base self) = true →
     imageData (data (base self)) = None →
     getBlend self = (Throw no_composite_msg, self))
  ∧ (isLoaded (base self) = true →
     imageData (data (base self)) ≠ None →
     let width := hd_width (header (data (base self))) in
     let height := hd_height (header (data (base self))) in
     0 < width → 0 < height → fits_int (width * 4 * height) →
     getBlend self
     = delivered self height width
         (getMergedImage (data (base self)) BGRA_LE (width * 4)
            (replicate (Z.to_nat (width * 4 * height)) 0))).
Proof.
  unfold getBlend. split_and!.
  - by intros ->.
  - by intros -> ->.
  - intros -> Himg. cbn zeta. intros Hw Hh Hfits. simpl.
    destruct (imageData (data (base self))); [| done].
    set (width := hd_width (header (data (base self)))) in *.
    set (height := hd_height (header (data (base self)))) in *.
    destruct (region_size_fits width height) as [Hsize Hpitch];
      [lia | lia | done |].
    rewrite Hsize, Hpitch by lia.
    assert (Hpos : (width * 4 * height <? 0) = false)
      by (apply Z.ltb_ge; nia).
    assert (Hdims : (height <? 0) || (width <? 0) = false).
    { apply orb_false_iff. split; apply Z.ltb_ge; lia. }
    rewrite Hdims, Hpos. unfold new_buffer, delivered.
    destruct (getMergedImage _ _ _ _) as [[buffer | what] d]; [| done].
    by rewrite copy_to_array_elems by (done || lia).
Qed.

(** *** The blend mode in the layer dictionary *)

Lemma convBlendModeToString_named (mode : BlendMode) :
  mode ∈ named_modes → convBlendModeToString mode = blend_mode_name mode.
Proof.
  unfold named_modes. rewrite !elem_of_cons, elem_of_nil.
  destruct mode; try reflexivity; intros Hin;
    repeat destruct Hin as [Hin | Hin]; done.
Qed.

Lemma convBlendModeToString_default (mode : BlendMode) :
  mode ∉ named_modes → convBlendModeToString mode = "normal".
Proof.
  unfold named_modes. rewrite !elem_of_cons, elem_of_nil.
  destruct mode; try reflexivity; intros Hout; exfalso; apply Hout; tauto.
Qed.

(** C3 (amended): on a loaded document and a valid index, the dictionary
    of [getLayerInfo] holds the numeric code of the blend mode of the
    layer under the key blend_mode, and under the key type the name that
    [convBlendModeToString] gives it: the name of the mode for the fourteen
    modes normal, darken, multiply, color burn, linear burn, lighten,
    screen, color dodge, linear dodge, overlay, soft light, hard light,
    difference and exclusion, and the name normal for each of the nine
    other modes. *)
Theorem layer_info_blend_mode (self : PythonPSD) (layerNo : Z) :
  isLoaded (base self) = true →
  valid_index self layerNo →
  let mode := lay_blendMode (layer_at self layerNo) in
  ∃ info,
    getLayerInfo self layerNo = Ok info
    ∧ info !! "blend_mode" = Some (PyInt (blendModeCode mode))
    ∧ info !! "type" = Some (PyStr (convBlendModeToString mode))
    ∧ (mode ∈ named_modes →
       info !! "type" = Some (PyStr (blend_mode_name mode)))
    ∧ (mode ∉ named_modes → info !! "type" = Some (PyStr "normal")).
Proof.
  intros Hl Hv mode.
  assert (Hi : invalid_layer self layerNo = false)
    by (by apply invalid_layer_false).
  assert (Hinfo : ∃ info, getLayerInfo self layerNo = Ok info
            ∧ info !! "blend_mode" = Some (PyInt (blendModeCode mode))
            ∧ info !! "type" = Some (PyStr (convBlendModeToString mode))).
  { unfold getLayerInfo. rewrite Hi.
    destruct (getLayerName_valid _ _ Hi) as [name ->].
    fold (layer_at self layerNo). fold mode.
    destruct (lay_parent (layer_at self layerNo)),
      (lay_layerComps (layer_at self layerNo));
      (eexists; split; [reflexivity |]; split; by simplify_map_eq). }
  destruct Hinfo as (info & Hget & Hcode & Htype).
  exists info. split_and!; try done.
  - intros Hin. by rewrite Htype, convBlendModeToString_named.
  - intros Hout. by rewrite Htype, convBlendModeToString_default.
Qed.

(** *** The assignment of ids *)

Lemma layerId_set (id : Z) (lay : LayerInfo) :
  lay_layerId (set_layerId id lay) = id.
Proof. reflexivity. Qed.

Lemma unassigned_cons (layer : LayerInfo) (rest : list LayerInfo) :
  unassigned (layer :: rest)
  = if decide (lay_layerId layer = -1) then S (unassigned rest)
    else unassigned rest.
Proof.
  unfold unassigned. rewrite filter_cons.
  destruct (decide (lay_layerId layer = -1)); done.
Qed.

Lemma unassigned_app (l1 l2 : list LayerInfo) :
  unassigned (l1 ++ l2) = (unassigned l1 + unassigned l2)%nat.
Proof. unfold unassigned. by rewrite filter_app, length_app. Qed.

Lemma unassigned_take_lt (layers : list LayerInfo) (i j : nat)
    (lay : LayerInfo) :
  (i < j)%nat → layers !! i = Some lay → lay_layerId lay = -1 →
  (unassigned (take i layers) < unassigned (take j layers))%nat.
Proof.
  intros Hij Hlook Hid.
  rewrite <- (take_drop (S i) (take j layers)).
  rewrite take_take, Nat.min_l by lia.
  rewrite (take_S_r _ _ _ Hlook), !unassigned_app.
  assert (Hone : unassigned [lay] = 1%nat)
    by (by rewrite unassigned_cons, decide_True by done).
  rewrite Hone. lia.
Qed.

Lemma unassigned_take_below (layers : list LayerInfo) (i : nat)
    (lay : LayerInfo) :
  layers !! i = Some lay → lay_layerId lay = -1 →
  (unassigned (take i layers) < unassigned layers)%nat.
Proof.
  intros Hlook Hid.
  pose proof (unassigned_take_lt layers i (length layers) lay) as Hlt.
  rewrite firstn_all in Hlt. apply Hlt; [| done | done].
  by apply lookup_lt_Some in Hlook.
Qed.

Lemma find_max_id_foldl (layers : list LayerInfo) (acc : Z) :
  let r :=
    foldl (fun minId layer =>
             if minId <? lay_layerId layer then lay_layerId layer else minId)
          acc layers in
  acc ≤ r ∧ (∀ x, x ∈ layer_ids layers → x ≤ r)
  ∧ (r = acc ∨ r ∈ layer_ids layers).
Proof.
  revert acc. induction layers as [| layer rest IH]; intros acc; simpl.
  - split; [lia |]. split; [| by left]. intros x Hx. by apply elem_of_nil in Hx.
  - destruct (IH (if acc <? lay_layerId layer then lay_layerId layer
                  else acc)) as (Hge & Hall & Hin).
    destruct (Z.ltb_spec acc (lay_layerId layer)).
    + split; [lia |]. split.
      * intros x Hx. apply elem_of_cons in Hx as [-> | Hx]; [done | auto].
      * right. apply elem_of_cons. destruct Hin as [-> | Hin]; auto.
    + split; [lia |]. split.
      * intros x Hx. apply elem_of_cons in Hx as [-> | Hx]; [lia | auto].
      * destruct Hin as [-> | Hin]; [by left |].
        right. apply elem_of_cons. auto.
Qed.


Lemma first_free_bounds (layers : list LayerInfo) (baseId : Z) :
  -1 ≤ first_free layers baseId
  ∧ baseId ≤ first_free layers baseId
  ∧ (∀ x, x ∈ layer_ids layers → x ≤ first_free layers baseId)
  ∧ (first_free layers baseId = -1 ∨ first_free layers baseId = baseId
     ∨ first_free layers baseId ∈ layer_ids layers).
Proof.
  destruct (find_max_id_foldl layers (-1)) as (Hge & Hall & Hr).
  fold (find_max_id layers) in Hge, Hall, Hr. unfold first_free.
  split_and!; try lia.
  - intros x Hx. specialize (Hall x Hx). lia.
  - destruct (Z.max_spec baseId (find_max_id layers)) as [[_ ->] | [_ ->]].
    + destruct Hr as [-> | Hr]; auto.
    + auto.
Qed.

(** The second loop, whatever the counters it starts from: it keeps the
    length of the list and the layers that have an id, and gives the
    layers without an id the successive values of the counter [baseId],
    with the wrap-around of [int]. *)
Lemma assign_loop_wrap (layers : list LayerInfo) (baseId assigned : Z) :
  (assign_loop layers baseId assigned).2
  = (if decide (unassigned layers = 0%nat) then assigned
     else wrap32 (assigned + Z.of_nat (unassigned layers)))
  ∧ length (assign_loop layers baseId assigned).1.1 = length layers
  ∧ ∀ (i : nat) lay, layers !! i = Some lay →
      (assign_loop layers baseId assigned).1.1 !! i
      = Some (if decide (lay_layerId lay = -1)
              then set_layerId
                     (wrap32 (baseId + 1
                              + Z.of_nat (unassigned (take i layers)))) lay
              else lay).
Proof.
  revert baseId assigned.
  induction layers as [| layer rest IH]; intros baseId assigned.
  - simpl. split_and!; done.
  - simpl. rewrite unassigned_cons.
    destruct (Z.eqb_spec (lay_layerId layer) (-1)) as [Hid | Hid].
    + destruct (IH (wrap32 (baseId + 1)) (wrap32 (assigned + 1)))
        as (Ha & Hlen & Hnth).
      destruct (assign_loop rest (wrap32 (baseId + 1))
                  (wrap32 (assigned + 1))) as [[rest' b'] a'].
      simpl in *. rewrite (decide_True (P := lay_layerId layer = -1)) by done.
      split_and!.
      * rewrite (decide_False (P := S (unassigned rest) = 0%nat)) by done.
        rewrite Ha.
        destruct (decide (unassigned rest = 0%nat)) as [-> | _].
        -- f_equal; lia.
        -- rewrite wrap32_add. f_equal; lia.
      * by rewrite Hlen.
      * intros [| i] lay Hlook; simpl in *.
        -- injection Hlook as <-. rewrite decide_True by done.
           do 3 f_equal; unfold unassigned; simpl; lia.
        -- rewrite (Hnth i lay Hlook). rewrite unassigned_cons.
           rewrite (decide_True (P := lay_layerId layer = -1)) by done.
           destruct (decide (lay_layerId lay = -1)); [| done].
           do 2 f_equal. rewrite <- Z.add_assoc, wrap32_add. f_equal; lia.
    + destruct (IH baseId assigned) as (Ha & Hlen & Hnth).
      destruct (assign_loop rest baseId assigned) as [[rest' b'] a'].
      simpl in *. rewrite (decide_False (P := lay_layerId layer = -1)) by done.
      split_and!; [done | by rewrite Hlen |].
      intros [| i] lay Hlook; simpl in *.
      * injection Hlook as <-. by rewrite decide_False by done.
      * rewrite (Hnth i lay Hlook). rewrite unassigned_cons.
        by rewrite (decide_False (P := lay_layerId layer = -1)) by done.
Qed.

Lemma assign_loop_noop (layers : list LayerInfo) (baseId assigned : Z) :
  Forall (fun lay => lay_layerId lay ≠ -1) layers →
  assign_loop layers baseId assigned = (layers, baseId, assigned).
Proof.
  induction 1 as [| layer rest Hid _ IH]; [done |]. simpl.
  destruct (Z.eqb_spec (lay_layerId layer) (-1)); [done |].
  by rewrite IH.
Qed.

Lemma unassigned_none (layers : list LayerInfo) :
  Forall (fun lay => lay_layerId lay ≠ -1) layers → unassigned layers = 0%nat.
Proof.
  induction 1 as [| layer rest Hid _ IH]; [done |].
  rewrite unassigned_cons. by rewrite decide_False by done.
Qed.


Lemma assignAutoIds_loaded (self : PythonPSD) (baseId : Z) :
  isLoaded (base self) = true →
  assignAutoIds self baseId
  = let old := layerList (data (base self)) in
    let r := assign_loop old (Z.max baseId (find_max_id old)) 0 in
    (Ok r.2,
     with_base {| data := set_layerList r.1.1 (data (base self));
                  isLoaded := true |} self).
Proof.
  intros Hl. unfold assignAutoIds. rewrite Hl. simpl.
  assert (Hmax : (if baseId <? find_max_id (layerList (data (base self)))
                  then find_max_id (layerList (data (base self)))
                  else baseId)
                 = Z.max baseId (find_max_id (layerList (data (base self))))).
  { destruct (Z.ltb_spec baseId
                (find_max_id (layerList (data (base self))))); lia. }
  rewrite Hmax.
  destruct (assign_loop _ _ 0) as [[layers b] a]. done.
Qed.

(** The layer at a position after [assignAutoIds], in every case. *)
Lemma assigned_lookup (self : PythonPSD) (baseId : Z) (i : nat)
    (lay : LayerInfo) :
  isLoaded (base self) = true →
  layerList (data (base self)) !! i = Some lay →
  layerList (data (base (assignAutoIds self baseId).2)) !! i
  = Some (if decide (lay_layerId lay = -1)
          then set_layerId
                 (wrap32
                    (first_free (layerList (data (base self))) baseId + 1
                     + Z.of_nat (unassigned
                                   (take i (layerList (data (base self)))))))
                 lay
          else lay).
Proof.
  intros Hl Hlook. rewrite (assignAutoIds_loaded _ _ Hl). simpl.
  destruct (assign_loop_wrap (layerList (data (base self)))
              (Z.max baseId (find_max_id (layerList (data (base self))))) 0)
    as (_ & _ & Hnth).
  exact (Hnth i lay Hlook).
Qed.

Lemma assigned_length (self : PythonPSD) (baseId : Z) :
  isLoaded (base self) = true →
  length (layerList (data (base (assignAutoIds self baseId).2)))
  = length (layerList (data (base self))).
Proof.
  intros Hl. rewrite (assignAutoIds_loaded _ _ Hl). simpl.
  by destruct (assign_loop_wrap (layerList (data (base self)))
                 (Z.max baseId (find_max_id (layerList (data (base self)))))
                 0) as (_ & Hlen & _).
Qed.

Lemma assigned_origin (self : PythonPSD) (baseId : Z) (i : nat)
    (lay' : LayerInfo) :
  isLoaded (base self) = true →
  layerList (data (base (assignAutoIds self baseId).2)) !! i = Some lay' →
  ∃ lay,
    layerList (data (base self)) !! i = Some lay
    ∧ lay' = if decide (lay_layerId lay = -1)
             then set_layerId
                    (wrap32
                       (first_free (layerList (data (base self))) baseId + 1
                        + Z.of_nat
                            (unassigned
                               (take i (layerList (data (base self)))))))
                    lay
             else lay.
Proof.
  intros Hl Hnew.
  assert (Hlt : (i < length (layerList (data (base self))))%nat).
  { rewrite <- (assigned_length self baseId Hl).
    by apply lookup_lt_Some in Hnew. }
  apply lookup_lt_is_Some_2 in Hlt as [lay Hold].
  exists lay. split; [done |].
  rewrite (assigned_lookup _ _ _ _ Hl Hold) in Hnew. by injection Hnew.
Qed.

Lemma assigned_id_exact (layers : list LayerInfo) (baseId : Z) (i : nat)
    (lay : LayerInfo) :
  ids_in_range layers baseId →
  layers !! i = Some lay → lay_layerId lay = -1 →
  wrap32 (first_free layers baseId + 1
          + Z.of_nat (unassigned (take i layers)))
  = first_free layers baseId + 1 + Z.of_nat (unassigned (take i layers)).
Proof.
  intros (Hn & Hb & Hids) Hlook Hid.
  destruct (first_free_bounds layers baseId) as (Hm1 & _ & _ & Hcases).
  pose proof (unassigned_take_below layers i lay Hlook Hid) as Hlt.
  assert (Hlast : first_free layers baseId + Z.of_nat (unassigned layers)
                  ≤ 2147483647).
  { destruct Hcases as [-> | [-> | Hin]]; [lia | lia | by apply Hids]. }
  apply wrap32_fits. unfold fits_int. lia.
Qed.


(** ** Further properties of the methods *)

(** *** Basic information and the properties *)

(** X1: on a loaded document the dictionary of [getBasicInfo] has exactly its
    six keys, and the read-only properties are the members of the header
    and the number of layers. *)
Theorem basic_info_loaded (self : PythonPSD) :
  isLoaded (base self) = true →
  dom (getBasicInfo self) = basic_info_keys
  ∧ prop_width self = hd_width (header (data (base self)))
  ∧ prop_height self = hd_height (header (data (base self)))
  ∧ prop_channels self = hd_channels (header (data (base self)))
  ∧ prop_depth self = hd_depth (header (data (base self)))
  ∧ prop_color_mode self = hd_mode (header (data (base self)))
  ∧ prop_layer_count self
    = Z.of_nat (length (layerList (data (base self)))).
Proof.
  intros Hl.
  unfold prop_width, prop_height, prop_channels, prop_depth,
    prop_color_mode, prop_layer_count, basic_property, getBasicInfo.
  rewrite Hl. simpl. split_and!; by simplify_map_eq.
Qed.

Lemma prop_layer_count_cases (self : PythonPSD) :
  prop_layer_count self
  = if isLoaded (base self)
    then Z.of_nat (length (layerList (data (base self))))
    else -1.
Proof.
  unfold prop_layer_count, basic_property, getBasicInfo.
  destruct (isLoaded (base self)); simpl; by simplify_map_eq.
Qed.

Lemma valid_by_layer_count (self : PythonPSD) (layerNo : Z) :
  invalid_layer self layerNo = false ↔ 0 ≤ layerNo < prop_layer_count self.
Proof.
  rewrite invalid_layer_false, prop_layer_count_cases. unfold valid_index.
  destruct (isLoaded (base self)).
  - split; [by intros [_ ?] | done].
  - split; [by intros [? _] | lia].
Qed.

(** X2: in every state of the object, loaded or not, the indices at which the
    accessors [getLayerType], [getLayerName] and [getLayerInfo] answer
    without an exception are the integers from 0 to the property
    [layer_count] excluded. *)
Theorem layer_count_bounds_accessors (self : PythonPSD) (layerNo : Z) :
  (is_error (getLayerType self layerNo) = false
   ↔ 0 ≤ layerNo < prop_layer_count self)
  ∧ (is_error (getLayerName self layerNo) = false
     ↔ 0 ≤ layerNo < prop_layer_count self)
  ∧ (is_error (getLayerInfo self layerNo) = false
     ↔ 0 ≤ layerNo < prop_layer_count self).
Proof.
  rewrite <- valid_by_layer_count.
  split_and!.
  - unfold getLayerType. destruct (invalid_layer self layerNo); done.
  - unfold getLayerName. destruct (invalid_layer self layerNo); [done |].
    destruct (lay_layerNameUnicode _); done.
  - unfold getLayerInfo.
    destruct (invalid_layer self layerNo) eqn:Hv; [done |].
    destruct (getLayerName_valid _ _ Hv) as [name ->]. done.
Qed.

(** *** Loading *)

(** X3: [loadFromBytes] answers the flag [isLoaded] of the object it leaves. It
    answers [true] exactly when the decoder accepts the bytes, consumes
    all of them and the post-processing succeeds; the object then holds
    the post-processed data and a copy of the bytes. *)
Theorem loadFromBytes_success (self : PythonPSD) (bytes : list Z) :
  (loadFromBytes self bytes).1 = isLoaded (base (loadFromBytes self bytes).2)
  ∧ ((loadFromBytes self bytes).1 = true
     ↔ (parse bytes emptyData).1.1 = true
       ∧ (parse bytes emptyData).1.2 = length bytes
       ∧ (processParsed (parse bytes emptyData).2).1 = true)
  ∧ ((loadFromBytes self bytes).1 = true →
     data (base (loadFromBytes self bytes).2)
     = (processParsed (parse bytes emptyData).2).2
     ∧ fileData (loadFromBytes self bytes).2 = bytes).
Proof.
  split; [| split; [apply loadFromBytes_true_iff |]].
  - unfold loadFromBytes. simpl.
    destruct (parse bytes emptyData) as [[r consumed] d]. simpl.
    destruct (r && bool_decide (consumed = length bytes)); simpl; [| done].
    destruct (processParsed d) as [ok d']. simpl. by destruct ok.
  - unfold loadFromBytes. simpl.
    destruct (parse bytes emptyData) as [[r consumed] d]. simpl.
    destruct (r && bool_decide (consumed = length bytes)); simpl; [| done].
    destruct (processParsed d) as [ok d']. simpl. by destruct ok.
Qed.

(** *** Names *)

(** X4: on a loaded document and a valid index, [getLayerName] returns the
    converted Unicode name when the layer has one that is not empty, and
    the plain name otherwise; the entry name of the dictionary of
    [getLayerInfo] is that same name. *)
Theorem layer_name_precedence (self : PythonPSD) (layerNo : Z) :
  isLoaded (base self) = true →
  valid_index self layerNo →
  ∃ name info,
    getLayerName self layerNo = Ok name
    ∧ (lay_layerNameUnicode (layer_at self layerNo) ≠ [] →
       name = wstring_to_string
                (lay_layerNameUnicode (layer_at self layerNo)))
    ∧ (lay_layerNameUnicode (layer_at self layerNo) = [] →
       name = lay_layerName (layer_at self layerNo))
    ∧ getLayerInfo self layerNo = Ok info
    ∧ info !! "name" = Some (PyStr name).
Proof.
  intros Hl Hv.
  assert (Hi : invalid_layer self layerNo = false)
    by (by apply invalid_layer_false).
  destruct (getLayerName_valid _ _ Hi) as [name Hname].
  exists name.
  assert (Hinfo : ∃ info, getLayerInfo self layerNo = Ok info
                          ∧ info !! "name" = Some (PyStr name)).
  { unfold getLayerInfo. rewrite Hi, Hname.
    destruct (lay_parent _), (lay_layerComps _);
      (eexists; split; [reflexivity |]; by simplify_map_eq). }
  destruct Hinfo as (info & Hget & Hentry). exists info.
  split; [done |].
  unfold getLayerName in Hname. rewrite Hi in Hname.
  fold (layer_at self layerNo) in Hname.
  destruct (lay_layerNameUnicode (layer_at self layerNo)) eqn:Hu;
    injection Hname as <-; split_and!; done.
Qed.

(** *** Names of blend modes *)

(** X5: the name [convBlendModeToString] gives tells the modes of the fourteen
    named ones apart, and the name normal is given to the mode normal and
    to the modes that are not named, and to no other mode. *)
Theorem blend_name_identifies_named (m1 m2 : BlendMode) :
  (m1 ∈ named_modes → m2 ∈ named_modes →
   convBlendModeToString m1 = convBlendModeToString m2 → m1 = m2)
  ∧ (convBlendModeToString m1 = "normal"
     ↔ m1 = BLEND_MODE_NORMAL ∨ m1 ∉ named_modes).
Proof.
  split.
  - intros H1 H2. rewrite !convBlendModeToString_named by done.
    destruct m1, m2; simpl; intros Heq; try reflexivity; discriminate Heq.
  - split.
    + destruct (decide (m1 ∈ named_modes)) as [Hin | Hout]; [| by right].
      rewrite convBlendModeToString_named by done.
      destruct m1; simpl; intros Heq; try discriminate Heq. by left.
    + intros [-> | Hout]; [done | by apply convBlendModeToString_default].
Qed.

(** *** The dictionary of a layer *)

(** X6: on a loaded document and a valid index, the dictionary of
    [getLayerInfo] has its nineteen fixed keys, the key group_layer_id
    exactly when the layer has a parent, with the id of the parent, and
    the key layer_comp exactly when the layer belongs to a layer comp. Its
    entry mask tells whether one of the channels is a mask channel. *)
Theorem layer_info_keys_present (self : PythonPSD) (layerNo : Z) :
  isLoaded (base self) = true →
  valid_index self layerNo →
  let lay := layer_at self layerNo in
  ∃ info,
    getLayerInfo self layerNo = Ok info
    ∧ dom info
      = layer_info_keys
        ∪ (match lay_parent lay with
           | Some _ => {["group_layer_id"]}
           | None => ∅
           end)
        ∪ (match lay_layerComps lay with
           | [] => ∅
           | _ :: _ => {["layer_comp"]}
           end)
    ∧ info !! "group_layer_id"
      = (fun p => PyInt (lay_layerId (layerList (data (base self)) !!! p)))
          <$> lay_parent lay
    ∧ info !! "layer_id" = Some (PyInt (lay_layerId lay))
    ∧ (info !! "mask" = Some (PyBool true)
       ↔ ∃ ch, ch ∈ lay_channels lay ∧ isMaskChannel ch = true).
Proof.
  intros Hl Hv lay.
  assert (Hi : invalid_layer self layerNo = false)
    by (by apply invalid_layer_false).
  assert (Hmask : ∀ b : bool,
            Some (PyBool b) = Some (PyBool true)
            ↔ b = true) by (intros []; split; congruence).
  assert (Hex : existsb isMaskChannel (lay_channels lay) = true
                ↔ ∃ ch, ch ∈ lay_channels lay ∧ isMaskChannel ch = true).
  { rewrite existsb_exists. split; intros (ch & Hin & Hch); exists ch;
      (split; [by apply list_elem_of_In | done]). }
  unfold getLayerInfo. rewrite Hi.
  destruct (getLayerName_valid _ _ Hi) as [name ->].
  fold (layer_at self layerNo). fold lay.
  destruct (lay_parent lay), (lay_layerComps lay);
    (eexists; split; [reflexivity |]; split;
     [ reflexivity
     | split; [by simplify_map_eq |]; split; [by simplify_map_eq |];
       rewrite <- Hex, <- Hmask; by simplify_map_eq ]).
Qed.

(** *** The layer comps of a layer *)






(** *** Guides, slices and layer comps of the document *)

Lemma filter_split_length {A} (P : A → Prop) `{∀ x, Decision (P x)}
    (l : list A) :
  (length (filter P l) + length (filter (fun x => ¬ P x) l))%nat = length l.
Proof.
  induction l as [| x l IH]; [done |].
  rewrite !filter_cons. destruct (decide (P x)) as [Hp | Hp].
  - rewrite decide_False by tauto. simpl. lia.
  - rewrite decide_True by done. simpl. lia.
Qed.

(** X8: on a loaded document [getGuides] returns [None] when the guides are
    not enabled. Otherwise its dictionary lists, under vertical, the
    locations of the guides of direction 0 and, under horizontal, the
    locations of all the other guides, each list in the order of the
    document: every guide is in one list and one only. *)
Theorem guides_partition (self : PythonPSD) :
  isLoaded (base self) = true →
  let gg := gridGuide (data (base self)) in
  (gg_isEnabled gg = false → getGuides self = (Ok PyNone, self))
  ∧ (gg_isEnabled gg = true →
     ∃ d v h,
       getGuides self = (Ok (PyDict d), self)
       ∧ d !! "vertical" = Some (PyList (PyInt <$> v))
       ∧ d !! "horizontal" = Some (PyList (PyInt <$> h))
       ∧ d !! "horz_grid" = Some (PyInt (gg_horizontalGrid gg))
       ∧ d !! "vert_grid" = Some (PyInt (gg_verticalGrid gg))
       ∧ v = gd_location
               <$> filter (fun g => gd_direction g = 0) (gg_guides gg)
       ∧ h = gd_location
               <$> filter (fun g => ¬ gd_direction g = 0) (gg_guides gg)
       ∧ (length v + length h)%nat = length (gg_guides gg)).
Proof.
  intros Hl gg. unfold getGuides. rewrite Hl. fold gg. simpl. split.
  - by intros ->.
  - intros ->. simpl.
    exists (<["horizontal" :=
               PyList (PyInt <$> (gd_location
                  <$> filter (fun g => ¬ gd_direction g = 0)
                        (gg_guides gg)))]>
            (<["vertical" :=
                PyList (PyInt <$> (gd_location
                   <$> filter (fun g => gd_direction g = 0)
                         (gg_guides gg)))]>
             (<["vert_grid" := PyInt (gg_verticalGrid gg)]>
              (<["horz_grid" := PyInt (gg_horizontalGrid gg)]> ∅)))).
    eexists _, _. split.
    { rewrite <- !list_fmap_compose. reflexivity. }
    split_and!; try by simplify_map_eq.
    rewrite !length_fmap. apply filter_split_length.
Qed.

(** X9: on a loaded document [getSlices] returns [None] when the slices are
    not enabled. Otherwise its dictionary has the bounding box and the
    name of the group, and the list slices has one dictionary for each
    slice, in the order of the document. *)
Theorem slices_listing (self : PythonPSD) :
  isLoaded (base self) = true →
  let sr := slice (data (base self)) in
  (sr_isEnabled sr = false → getSlices self = (Ok PyNone, self))
  ∧ (sr_isEnabled sr = true →
     ∃ d l,
       getSlices self = (Ok (PyDict d), self)
       ∧ d !! "top" = Some (PyInt (sr_boundingTop sr))
       ∧ d !! "left" = Some (PyInt (sr_boundingLeft sr))
       ∧ d !! "bottom" = Some (PyInt (sr_boundingBottom sr))
       ∧ d !! "right" = Some (PyInt (sr_boundingRight sr))
       ∧ d !! "name" = Some (PyStr (sr_groupName sr))
       ∧ d !! "slices" = Some (PyList l)
       ∧ length l = length (sr_slices sr)
       ∧ ∀ (i : nat) item, sr_slices sr !! i = Some item →
           ∃ entry,
             l !! i = Some (PyDict entry)
             ∧ entry !! "id" = Some (PyInt (sl_id item))
             ∧ entry !! "name" = Some (PyStr (sl_name item))
             ∧ entry !! "associated_layer_id"
               = Some (PyInt (sl_associatedLayerId item))).
Proof.
  intros Hl sr. unfold getSlices. rewrite Hl. fold sr. simpl. split.
  - by intros ->.
  - intros ->. simpl. eexists _, _. split; [reflexivity |].
    split_and!; try by simplify_map_eq.
    + by rewrite length_fmap.
    + intros i item Hlook. eexists. split.
      * rewrite list_lookup_fmap, Hlook. reflexivity.
      * split_and!; by simplify_map_eq.
Qed.

Lemma lor_low_bits (hi lo n : Z) :
  0 ≤ n → 0 ≤ lo < 2 ^ n → Z.lor (hi * 2 ^ n) lo = hi * 2 ^ n + lo.
Proof.
  intros Hn Hlo.
  assert (Hland : Z.land (hi * 2 ^ n) lo = 0).
  { apply Z.bits_inj'. intros i Hi. rewrite Z.land_spec, Z.bits_0.
    destruct (Z.lt_ge_cases i n) as [Hlt | Hge].
    - by rewrite Z.mul_pow2_bits_low by lia.
    - rewrite <- (Z.mod_small lo (2 ^ n)) by lia.
      rewrite Z.mod_pow2_bits_high by lia. apply andb_false_r. }
  rewrite <- Z.lxor_lor by exact Hland.
  by rewrite <- Z.add_nocarry_lxor by exact Hland.
Qed.

(** X10: the colour of a slice whose four components are bytes, the alpha one
    below 128 (so that the shift by 24 stays in the range of [int]), is
    packed as alpha, red, green, blue from the high byte to the low one:
    it is in the range of [int] and each component is read back from it. *)
Theorem slice_color_argb (item : SliceItem) :
  0 ≤ sl_colorA item < 128 →
  0 ≤ sl_colorR item < 256 →
  0 ≤ sl_colorG item < 256 →
  0 ≤ sl_colorB item < 256 →
  ∃ entry color,
    sliceDict item = PyDict entry
    ∧ entry !! "color" = Some (PyInt color)
    ∧ color = sl_colorA item * 16777216 + sl_colorR item * 65536
              + sl_colorG item * 256 + sl_colorB item
    ∧ 0 ≤ color ∧ fits_int color
    ∧ color / 16777216 = sl_colorA item
    ∧ (color / 65536) mod 256 = sl_colorR item
    ∧ (color / 256) mod 256 = sl_colorG item
    ∧ color mod 256 = sl_colorB item.
Proof.
  intros Ha Hr Hg Hb.
  set (a := sl_colorA item) in *. set (r := sl_colorR item) in *.
  set (g := sl_colorG item) in *. set (b := sl_colorB item) in *.
  assert (Hpack : Z.lor (Z.lor (Z.lor (Z.shiftl a 24) (Z.shiftl r 16))
                               (Z.shiftl g 8)) b
                  = a * 16777216 + r * 65536 + g * 256 + b).
  { rewrite !Z.shiftl_mul_pow2 by lia.
    rewrite (lor_low_bits a (r * 2 ^ 16) 24) by lia.
    replace (a * 2 ^ 24 + r * 2 ^ 16) with ((a * 256 + r) * 2 ^ 16) by lia.
    rewrite (lor_low_bits (a * 256 + r) (g * 2 ^ 8) 16) by lia.
    replace ((a * 256 + r) * 2 ^ 16 + g * 2 ^ 8)
      with ((a * 65536 + r * 256 + g) * 2 ^ 8) by lia.
    rewrite (lor_low_bits (a * 65536 + r * 256 + g) b 8) by lia.
    lia. }
  eexists _, (a * 16777216 + r * 65536 + g * 256 + b).
  split; [reflexivity |]. split.
  { simplify_map_eq. fold a r g b. rewrite Hpack.
    by rewrite wrap32_fits by (unfold fits_int; lia). }
  split; [reflexivity |].
  unfold fits_int. split_and!; try lia.
  - symmetry. apply (Z.div_unique _ _ _ (r * 65536 + g * 256 + b)); lia.
  - rewrite <- (Z.div_unique _ 65536 (a * 256 + r) (g * 256 + b)) by lia.
    symmetry. apply (Z.mod_unique _ _ a); lia.
  - rewrite <- (Z.div_unique _ 256 (a * 65536 + r * 256 + g) b) by lia.
    symmetry. apply (Z.mod_unique _ _ (a * 256 + r)); lia.
  - symmetry. apply (Z.mod_unique _ _ (a * 65536 + r * 256 + g)); lia.
Qed.

(** X11: on a loaded document [getLayerComp] returns [None] when the document
    has no layer comp. Otherwise its dictionary has the id of the comp
    applied last and the list comps with one dictionary for each comp, in
    the order of the document. *)
Theorem layer_comps_listing (self : PythonPSD) :
  isLoaded (base self) = true →
  let comps := layerComps (data (base self)) in
  (comps = [] → getLayerComp self = (Ok PyNone, self))
  ∧ (comps ≠ [] →
     ∃ d l,
       getLayerComp self = (Ok (PyDict d), self)
       ∧ d !! "last_applied_id"
         = Some (PyInt (lastAppliedCompId (data (base self))))
       ∧ d !! "comps" = Some (PyList l)
       ∧ length l = length comps
       ∧ ∀ (i : nat) comp, comps !! i = Some comp →
           ∃ entry,
             l !! i = Some (PyDict entry)
             ∧ entry !! "id" = Some (PyInt (lc_id comp))
             ∧ entry !! "name" = Some (PyStr (lc_name comp))
             ∧ entry !! "comment" = Some (PyStr (lc_comment comp))
             ∧ entry !! "record_visibility"
               = Some (PyBool (lc_isRecordVisibility comp))
             ∧ entry !! "record_position"
               = Some (PyBool (lc_isRecordPosition comp))
             ∧ entry !! "record_appearance"
               = Some (PyBool (lc_isRecordAppearance comp))).
Proof.
  intros Hl comps. unfold getLayerComp. rewrite Hl. fold comps. simpl.
  split.
  - by intros ->.
  - intros Hne. destruct comps as [| c rest] eqn:Hc; [done |].
    exists (<["comps" := PyList (compDict <$> c :: rest)]>
            (<["last_applied_id" :=
                PyInt (lastAppliedCompId (data (base self)))]> ∅)).
    exists (compDict <$> c :: rest). split; [reflexivity |].
    split_and!; try by simplify_map_eq.
    + by rewrite length_fmap.
    + intros i comp Hlook. eexists. split.
      * rewrite list_lookup_fmap, Hlook. reflexivity.
      * split_and!; by simplify_map_eq.
Qed.

(** *** The arrays of a layer *)

Lemma select_region_returned (lay : LayerInfo) (mode : string) (a : ndarray) :
  select_region lay mode = Returned a → a = dummyArray (lay_layerMask lay).
Proof.
  unfold select_region.
  destruct (decide (mode = "mask")).
  - destruct ((lm_width _ <=? 0) || (lm_height _ <=? 0)); [| done].
    by intros [= <-].
  - destruct (decide (mode = "raw")); done.
Qed.

Lemma render_layer_array (self : PythonPSD) (lay : LayerInfo)
    (imageMode : ImageMode) (width height : Z) (array : ndarray) :
  (render_layer self lay imageMode width height).1 = Ok array →
  shape array = [height; width; 4]
  ∧ length (elems array) = (Z.to_nat height * (Z.to_nat width * 4))%nat.
Proof.
  unfold render_layer.
  destruct (wrap32 _ <? 0); [done |].
  destruct (getLayerImage _ _ _ _ _ _) as [[buffer | what] d]; [| done].
  simpl. intros [= <-]. split; [done | apply copy_to_array_length].
Qed.

(** X12: every array [getLayerData] returns, in any mode, has a shape of three
    dimensions, a positive height, a positive width and 4, and has as many
    elements as its shape tells. *)
Theorem layer_data_shape
    (self : PythonPSD) (layerNo : Z) (mode : string) (array : ndarray) :
  (getLayerData self layerNo mode).1 = Ok array →
  ∃ height width,
    0 < height ∧ 0 < width
    ∧ shape array = [height; width; 4]
    ∧ length (elems array) = (Z.to_nat height * (Z.to_nat width * 4))%nat.
Proof.
  unfold getLayerData.
  destruct (invalid_layer self layerNo); [done |].
  destruct (select_region _ mode) as [dummy | im x0 y0 w h] eqn:Hsel.
  - apply select_region_returned in Hsel as ->. simpl. intros [= <-].
    exists 1, 1. split_and!; done.
  - destruct ((w <=? 0) || (h <=? 0)) eqn:Hsz; [done |].
    apply positive_size in Hsz as [Hw Hh]. intros Hcall.
    apply render_layer_array in Hcall as [Hshape Hlen].
    exists h, w. split_and!; done.
Qed.

(** X13: on a loaded document and a valid index, the mask mode renders the
    mask image at the width and height of the mask, whatever the size of
    the layer, and the raw mode renders the layer image at the width and
    height of the layer. In each case, the width and height being positive
    and the bytes of the region counted by an [int], the call hands over
    the array of that height and width that holds the bytes
    [getLayerImage] writes in the format BGRA for rows of 4 x width bytes,
    or the error of that rendering. *)
Theorem layer_data_regions (self : PythonPSD) (layerNo : Z) :
  isLoaded (base self) = true →
  valid_index self layerNo →
  let lay := layer_at self layerNo in
  let mask := lay_layerMask lay in
  (0 < lm_width mask → 0 < lm_height mask →
   fits_int (lm_width mask * 4 * lm_height mask) →
   getLayerData self layerNo "mask"
   = delivered self (lm_height mask) (lm_width mask)
       (getLayerImage (data (base self)) lay BGRA_LE (lm_width mask * 4)
          IMAGE_MODE_MASK
          (replicate (Z.to_nat (lm_width mask * 4 * lm_height mask)) 0)))
  ∧ (0 < lay_width lay → 0 < lay_height lay →
     fits_int (lay_width lay * 4 * lay_height lay) →
     getLayerData self layerNo "raw"
     = delivered self (lay_height lay) (lay_width lay)
         (getLayerImage (data (base self)) lay BGRA_LE (lay_width lay * 4)
            IMAGE_MODE_IMAGE
            (replicate (Z.to_nat (lay_width lay * 4 * lay_height lay)) 0))).
Proof.
  intros Hl Hv lay mask.
  assert (Hi : invalid_layer self layerNo = false)
    by (by apply invalid_layer_false).
  split.
  - intros Hw Hh Hfits.
    assert (Hsz : (lm_width mask <=? 0) || (lm_height mask <=? 0) = false)
      by (by apply positive_size).
    rewrite (getLayerData_region _ _ _ Hi). cbn zeta. fold lay. fold mask.
    rewrite decide_True by done. rewrite Hsz.
    by apply render_layer_fits.
  - intros Hw Hh Hfits.
    assert (Hsz : (lay_width lay <=? 0) || (lay_height lay <=? 0) = false)
      by (by apply positive_size).
    rewrite (getLayerData_region _ _ _ Hi). cbn zeta. fold lay.
    rewrite decide_False by done. rewrite Hsz, decide_True by done.
    by apply render_layer_fits.
Qed.

(** *** More on the assignment of ids *)

Lemma wrap32_not_minus_one (v : Z) :
  0 ≤ v ≤ 4294967294 → wrap32 v ≠ -1.
Proof.
  intros Hv. unfold wrap32.
  destruct (Z.lt_ge_cases (v + 2147483648) 4294967296) as [Hlt | Hge].
  - rewrite Z.mod_small by lia. lia.
  - rewrite <- (Z.mod_unique (v + 2147483648) 4294967296 1
                  (v + 2147483648 - 4294967296)) by lia.
    lia.
Qed.

(** X14: on a loaded document, when the ids to give stay in the range of
    [int], each id that [assignAutoIds] gives is not negative, is above
    the base id and above every id the document had, and is below the ids
    given to the layers that follow in the list. *)
Theorem assigned_ids_fresh (self : PythonPSD) (baseId : Z) :
  isLoaded (base self) = true →
  let old := layerList (data (base self)) in
  let new := layerList (data (base (assignAutoIds self baseId).2)) in
  ids_in_range old baseId →
  ∀ (i : nat) lay,
    old !! i = Some lay → lay_layerId lay = -1 →
    ∃ lay',
      new !! i = Some lay'
      ∧ 0 ≤ lay_layerId lay'
      ∧ baseId < lay_layerId lay'
      ∧ (∀ x, x ∈ layer_ids old → x < lay_layerId lay')
      ∧ ∀ (j : nat) lay2,
          (i < j)%nat → old !! j = Some lay2 → lay_layerId lay2 = -1 →
          ∃ lay2', new !! j = Some lay2'
                   ∧ lay_layerId lay' < lay_layerId lay2'.
Proof.
  intros Hl old new Hrange i lay Hlook Hid.
  destruct (first_free_bounds old baseId) as (Hm1 & Hb & Hall & _).
  eexists. split.
  { unfold new. rewrite (assigned_lookup _ _ _ _ Hl Hlook).
    by rewrite decide_True by done. }
  fold old. rewrite layerId_set.
  rewrite (assigned_id_exact old baseId i lay Hrange Hlook Hid).
  split_and!; try lia.
  - intros x Hx. specialize (Hall x Hx). lia.
  - intros j lay2 Hij Hlook2 Hid2. eexists. split.
    { unfold new. rewrite (assigned_lookup _ _ _ _ Hl Hlook2).
      by rewrite decide_True by done. }
    fold old. rewrite layerId_set.
    rewrite (assigned_id_exact old baseId j lay2 Hrange Hlook2 Hid2).
    pose proof (unassigned_take_lt old i j lay Hij Hlook Hid). lia.
Qed.

(** X15: on a loaded document whose layers with an id have ids that differ
    from one another, and when the ids to give stay in the range of [int],
    the ids are all different after [assignAutoIds]: no id is given twice
    and no id given is an id of another layer. *)
Theorem assigned_ids_distinct (self : PythonPSD) (baseId : Z) :
  isLoaded (base self) = true →
  ids_in_range (layerList (data (base self))) baseId →
  (∀ (i j : nat) l1 l2,
     layerList (data (base self)) !! i = Some l1 →
     layerList (data (base self)) !! j = Some l2 →
     lay_layerId l1 = lay_layerId l2 → lay_layerId l1 ≠ -1 → i = j) →
  NoDup (layer_ids (layerList (data (base (assignAutoIds self baseId).2)))).
Proof.
  intros Hl Hrange Hold. set (old := layerList (data (base self))) in *.
  destruct (first_free_bounds old baseId) as (_ & _ & Hall & _).
  assert (Hin : ∀ (i : nat) lay, old !! i = Some lay →
                  lay_layerId lay ≤ first_free old baseId).
  { intros i lay Hlook. apply Hall. unfold layer_ids.
    apply list_elem_of_fmap. exists lay. split; [done |].
    by apply list_elem_of_lookup_2 in Hlook. }
  apply NoDup_alt. intros i j x Hi Hj. unfold layer_ids in Hi, Hj.
  rewrite list_lookup_fmap in Hi, Hj.
  destruct (layerList _ !! i) as [li' |] eqn:Hnewi; [| done].
  destruct (layerList _ !! j) as [lj' |] eqn:Hnewj; [| done].
  simpl in Hi, Hj. injection Hi as Hi. injection Hj as Hj.
  destruct (assigned_origin _ _ _ _ Hl Hnewi) as (li & Holdi & ->).
  destruct (assigned_origin _ _ _ _ Hl Hnewj) as (lj & Holdj & ->).
  fold old in Holdi, Holdj, Hi, Hj.
  pose proof (Hin i li Holdi). pose proof (Hin j lj Holdj).
  destruct (decide (lay_layerId li = -1)) as [Hli | Hli],
    (decide (lay_layerId lj = -1)) as [Hlj | Hlj];
    try rewrite layerId_set in Hi; try rewrite layerId_set in Hj;
    try rewrite (assigned_id_exact old baseId i li Hrange Holdi Hli) in Hi;
    try rewrite (assigned_id_exact old baseId j lj Hrange Holdj Hlj) in Hj.
  - destruct (Nat.lt_trichotomy i j) as [Hlt | [Heq | Hlt]]; [| done |].
    + pose proof (unassigned_take_lt old i j li Hlt Holdi Hli). lia.
    + pose proof (unassigned_take_lt old j i lj Hlt Holdj Hlj). lia.
  - lia.
  - lia.
  - apply (Hold i j li lj Holdi Holdj); [lia | done].
Qed.

(** X16: on a loaded document whose ids and base id are values of [int] and
    that has at most 2147483647 layers without an id, no layer is left
    with the id -1 after [assignAutoIds], so that a second call, with any
    base id, gives no id: it returns 0 and leaves the object as it is. *)
Theorem assign_twice (self : PythonPSD) (baseId baseId' : Z) :
  isLoaded (base self) = true →
  baseId ≤ 2147483647 →
  (∀ x, x ∈ layer_ids (layerList (data (base self))) → x ≤ 2147483647) →
  Z.of_nat (unassigned (layerList (data (base self)))) ≤ 2147483647 →
  let after := (assignAutoIds self baseId).2 in
  isLoaded (base after) = true
  ∧ Forall (fun lay => lay_layerId lay ≠ -1) (layerList (data (base after)))
  ∧ assignAutoIds after baseId' = (Ok 0, after).
Proof.
  intros Hl Hbase Hids Hn after.
  destruct (first_free_bounds (layerList (data (base self))) baseId)
    as (Hm1 & _ & _ & Hcases).
  assert (Hstart : first_free (layerList (data (base self))) baseId
                   ≤ 2147483647).
  { destruct Hcases as [-> | [-> | Hin]]; [lia | lia | by apply Hids]. }
  assert (Hl' : isLoaded (base after) = true).
  { unfold after. by rewrite (assignAutoIds_loaded _ _ Hl). }
  assert (Hnone : Forall (fun lay => lay_layerId lay ≠ -1)
                    (layerList (data (base after)))).
  { apply Forall_lookup. intros i lay' Hnew.
    destruct (assigned_origin _ _ _ _ Hl Hnew) as (lay & Hold & ->).
    destruct (decide (lay_layerId lay = -1)) as [Hid | Hid]; [| done].
    rewrite layerId_set.
    pose proof (unassigned_take_below _ i lay Hold Hid).
    apply wrap32_not_minus_one. lia. }
  split; [done |]. split; [done |].
  rewrite (assignAutoIds_loaded _ _ Hl'). cbn zeta.
  rewrite (assign_loop_noop _ _ _ Hnone). simpl.
  destruct after as [[d l] f]. simpl in *. subst l. by destruct d.
Qed.

(** X17: [assignAutoIds] on a loaded document changes nothing of what
    [getBasicInfo], [getLayerType] and [getLayerName] report. *)
Theorem assign_keeps_rest (self : PythonPSD) (baseId layerNo : Z) :
  isLoaded (base self) = true →
  let after := (assignAutoIds self baseId).2 in
  getBasicInfo after = getBasicInfo self
  ∧ getLayerType after layerNo = getLayerType self layerNo
  ∧ getLayerName after layerNo = getLayerName self layerNo.
Proof.
  intros Hl after.
  assert (Hl' : isLoaded (base after) = true).
  { unfold after. by rewrite (assignAutoIds_loaded _ _ Hl). }
  assert (Hlen : length (layerList (data (base after)))
                 = length (layerList (data (base self))))
    by apply (assigned_length _ _ Hl).
  assert (Hhd : header (data (base after)) = header (data (base self))).
  { unfold after. by rewrite (assignAutoIds_loaded _ _ Hl). }
  assert (Hinv : invalid_layer after layerNo = invalid_layer self layerNo).
  { unfold invalid_layer. by rewrite Hl, Hl', Hlen. }
  assert (Hlay : invalid_layer self layerNo = false →
            ∃ id, layerList (data (base after)) !!! Z.to_nat layerNo
                  = set_layerId id
                      (layerList (data (base self)) !!! Z.to_nat layerNo)).
  { intros Hi. apply invalid_layer_false in Hi as [_ Hv].
    unfold valid_index in Hv.
    assert (Hlt : (Z.to_nat layerNo
                   < length (layerList (data (base self))))%nat) by lia.
    apply lookup_lt_is_Some_2 in Hlt as [lay Hold].
    rewrite (list_lookup_total_correct _ _ _ Hold).
    pose proof (assigned_lookup _ baseId _ _ Hl Hold) as Hnew.
    fold after in Hnew.
    rewrite (list_lookup_total_correct _ _ _ Hnew).
    destruct (decide (lay_layerId lay = -1)); [by eexists |].
    exists (lay_layerId lay). by destruct lay. }
  split_and!.
  - unfold getBasicInfo. by rewrite Hl, Hl', Hhd, Hlen.
  - unfold getLayerType. rewrite Hinv.
    destruct (invalid_layer self layerNo) eqn:Hi; [done |].
    by destruct (Hlay eq_refl) as [id ->].
  - unfold getLayerName. rewrite Hinv.
    destruct (invalid_layer self layerNo) eqn:Hi; [done |].
    by destruct (Hlay eq_refl) as [id ->].
Qed.

(** *** Arrays and the dimensions reported elsewhere *)

Lemma prop_dims_loaded (self : PythonPSD) :
  isLoaded (base self) = true →
  prop_width self = hd_width (header (data (base self)))
  ∧ prop_height self = hd_height (header (data (base self))).
Proof.
  intros Hl. unfold prop_width, prop_height, basic_property, getBasicInfo.
  rewrite Hl. simpl. split; by simplify_map_eq.
Qed.

(** X18: when [getBlend] returns an array, the document is loaded with a merged
    image and the shape of the array is made of the properties [height]
    and [width] of the object, and 4. *)
Theorem blend_shape_matches_properties (self : PythonPSD) (array : ndarray) :
  (getBlend self).1 = Ok array →
  isLoaded (base self) = true
  ∧ imageData (data (base self)) ≠ None
  ∧ shape array = [prop_height self; prop_width self; 4].
Proof.
  unfold getBlend.
  destruct (isLoaded (base self)) eqn:Hl; [| done]. simpl.
  destruct (imageData (data (base self))); [| done].
  destruct ((_ <? 0) || (_ <? 0)); [done |].
  destruct (wrap32 _ <? 0); [done |].
  destruct (getMergedImage _ _ _ _) as [[buffer | what] d]; [| done].
  simpl. intros [= <-].
  destruct (prop_dims_loaded self Hl) as [-> ->].
  done.
Qed.

(** X19: when [getLayerData] returns an array in a mode that is not the mask
    mode, the shape of the array is made of the entries height and width
    of the dictionary of [getLayerInfo] for the same layer, and 4. *)
Theorem layer_data_shape_matches_info
    (self : PythonPSD) (layerNo : Z) (mode : string) (array : ndarray) :
  mode ≠ "mask" →
  (getLayerData self layerNo mode).1 = Ok array →
  ∃ info height width,
    getLayerInfo self layerNo = Ok info
    ∧ info !! "height" = Some (PyInt height)
    ∧ info !! "width" = Some (PyInt width)
    ∧ shape array = [height; width; 4].
Proof.
  intros Hm. unfold getLayerData.
  destruct (invalid_layer self layerNo) eqn:Hi; [done |].
  set (lay := layerList (data (base self)) !!! Z.to_nat layerNo).
  assert (Hsel : ∃ im, select_region lay mode
             = Region im (lay_left lay) (lay_top lay) (lay_width lay)
                 (lay_height lay)).
  { destruct (decide (mode = "raw")) as [-> | Hr].
    - eexists. apply select_region_raw.
    - eexists. by apply select_region_other. }
  destruct Hsel as [im ->].
  destruct ((lay_width lay <=? 0) || (lay_height lay <=? 0)); [done |].
  intros Hcall. apply render_layer_array in Hcall as [Hshape _].
  unfold getLayerInfo. rewrite Hi.
  destruct (getLayerName_valid _ _ Hi) as [name ->]. fold lay.
  destruct (lay_parent lay), (lay_layerComps lay);
    (eexists _, _, _; split; [reflexivity |];
     split; [by simplify_map_eq |]; split; [by simplify_map_eq | done]).
Qed.

End Properties.

(** ** The bindings on concrete inputs *)

Example load_header_2x2 :
  (loadFromBytes new_PythonPSD header_2x2).1 = true
  ∧ getBasicInfo (loadFromBytes new_PythonPSD header_2x2).2 !! "width" = Some 2.
Proof. vm_compute. done. Qed.

Example load_empty_fails : (loadFromBytes new_PythonPSD []).1 = false.
Proof. reflexivity. Qed.

Example raw_2x2 :
  (getLayerData (sample_document [sample_layer 2 2 7 BLEND_MODE_NORMAL] None)
     0 "raw").1
  = Ok {| shape := [2; 2; 4];
          elems := [0; 0; 0; 255; 0; 0; 0; 255; 0; 0; 0; 255; 0; 0; 0; 255] |}.
Proof. vm_compute. done. Qed.

(** A document is loaded from the header of a 2x2 image; a load of the
    empty byte string then fails, and the width of the first document, 2,
    is no longer reported: the object is back to its state at creation. *)
Lemma failed_load_loses_document :
  let first := loadFromBytes new_PythonPSD header_2x2 in
  let second := loadFromBytes first.2 [] in
  first.1 = true
  ∧ isLoaded (base first.2) = true
  ∧ getBasicInfo first.2 !! "width" = Some 2
  ∧ length (layerList (data (base first.2))) = 0%nat
  ∧ second.1 = false
  ∧ getBasicInfo second.2 !! "width" = None
  ∧ header (data (base second.2)) ≠ header (data (base first.2))
  ∧ isLoaded (base second.2) = false.
Proof. vm_compute. repeat split; done. Qed.

Lemma failed_load_discards_previous_witness :
  isLoaded (base (sample_document [] None)) = true
  ∧ (parse [] emptyData).1.1 = false
  ∧ loadFromBytes (sample_document [] None) [] = (false, new_PythonPSD).
Proof.
  split; [reflexivity |]. split; [reflexivity |].
  apply (failed_load_discards_previous (sample_document [] None) []);
    reflexivity.
Defined.

Lemma load_failure_leaves_unloaded_witness :
  (loadFromBytes (sample_document [] None) [56; 66; 80; 83]).1 = false.
Proof.
  apply (load_failure_leaves_unloaded (sample_document [] None)
           [56; 66; 80; 83]).
  left. reflexivity.
Defined.

Lemma unloaded_basic_info_witness :
  getBasicInfo new_PythonPSD = ∅ ∧ prop_width new_PythonPSD = -1.
Proof.
  pose proof (unloaded_basic_info new_PythonPSD eq_refl) as (H1 & H2 & _).
  split; assumption.
Defined.

(** A layer in the mode vivid light: its dictionary has the code of the
    mode, and the name normal, which is not the name of the mode. *)
Lemma vivid_light_named_normal :
  let doc :=
    sample_document [sample_layer 2 2 1 BLEND_MODE_VIVID_LIGHT] None in
  isLoaded (base doc) = true
  ∧ valid_index doc 0
  ∧ lay_blendMode (layer_at doc 0) = BLEND_MODE_VIVID_LIGHT
  ∧ ∃ info,
      getLayerInfo doc 0 = Ok info
      ∧ info !! "blend_mode" = Some (PyInt 12)
      ∧ info !! "type" = Some (PyStr "normal")
      ∧ info !! "type"
        ≠ Some (PyStr (blend_mode_name BLEND_MODE_VIVID_LIGHT)).
Proof.
  simpl. split; [done |]. split; [unfold valid_index; simpl; lia |].
  split; [done |]. eexists. split; [reflexivity |].
  split; [by vm_compute |]. split; [by vm_compute |].
  vm_compute. intros H. discriminate H.
Qed.

Lemma layer_info_blend_mode_witness :
  ∃ info,
    getLayerInfo (sample_document [sample_layer 2 2 1 BLEND_MODE_MULTIPLY]
                    None) 0 = Ok info
    ∧ info !! "type" = Some (PyStr "multiply").
Proof.
  destruct (layer_info_blend_mode
              (sample_document [sample_layer 2 2 1 BLEND_MODE_MULTIPLY] None)
              0 eq_refl) as (info & Hget & _ & Htype & _).
  - unfold valid_index. simpl. lia.
  - exists info. split; assumption.
Defined.



Example assignAutoIds_unchanged :
  let doc :=
    sample_document [ sample_layer 2 2 3 BLEND_MODE_NORMAL;
                      sample_layer 2 2 9 BLEND_MODE_NORMAL ] None in
  assignAutoIds doc 0 = (Ok 0, doc).
Proof. reflexivity. Qed.

Example assignAutoIds_from_base :
  layer_ids (layerList (data (base (assignAutoIds
    (sample_document [ sample_layer 2 2 (-1) BLEND_MODE_NORMAL;
                       sample_layer 2 2 5 BLEND_MODE_NORMAL;
                       sample_layer 2 2 (-1) BLEND_MODE_NORMAL ] None)
    100).2)))
  = [101; 5; 102].
Proof. reflexivity. Qed.

(** A loaded document whose only layer has width 0: the index 0 is valid
    and [getLayerType] answers, but [getLayerData] throws in raw mode. *)
Lemma zero_width_layer_data_throws :
  let doc := sample_document [sample_layer 0 2 1 BLEND_MODE_NORMAL] None in
  isLoaded (base doc) = true
  ∧ valid_index doc 0
  ∧ is_error (getLayerType doc 0) = false
  ∧ getLayerData doc 0 "raw" = (Throw zero_size_msg, doc)
  ∧ ¬ (is_error (getLayerData doc 0 "raw").1 = true
       ↔ isLoaded (base doc) = false ∨ ¬ valid_index doc 0).
Proof.
  simpl.
  assert (Hv : valid_index
                 (sample_document [sample_layer 0 2 1 BLEND_MODE_NORMAL] None)
                 0) by (unfold valid_index; simpl; lia).
  split; [done |]. split; [exact Hv |]. split; [done |]. split; [done |].
  intros [Hthrow _]. destruct (Hthrow eq_refl) as [Hl | Hi]; [done | auto].
Qed.

(** A loaded document whose only layer has a channel of the wrong length:
    the index 0 is valid and the layer has a positive size, but
    [getLayerData] throws the error of the renderer. *)
Example corrupt_layer_data_throws :
  getLayerData (sample_document [corrupt_layer] None) 0 "raw"
  = (Throw size_mismatch_msg, sample_document [corrupt_layer] None).
Proof. by vm_compute. Qed.

Lemma layer_accessor_failures_witness :
  getLayerData (sample_document [sample_layer 0 2 1 BLEND_MODE_NORMAL] None)
    0 "raw"
  = (Throw zero_size_msg,
     sample_document [sample_layer 0 2 1 BLEND_MODE_NORMAL] None)
  ∧ is_error (getLayerData (sample_document [corrupt_layer] None) 0 "raw").1
    = true
  ∧ is_error (getLayerType new_PythonPSD 0) = true.
Proof.
  split; [| split].
  - destruct (layer_accessor_failures
                (sample_document [sample_layer 0 2 1 BLEND_MODE_NORMAL] None)
                0 "raw") as (_ & _ & _ & _ & Hzero & _).
    apply Hzero.
    + reflexivity.
    + unfold valid_index. simpl. lia.
    + discriminate.
    + left. simpl. lia.
  - destruct (layer_accessor_failures (sample_document [corrupt_layer] None)
                0 "raw") as (_ & _ & _ & _ & _ & Hiff & _).
    assert (Hv : valid_index (sample_document [corrupt_layer] None) 0)
      by (unfold valid_index; simpl; lia).
    specialize (Hiff eq_refl Hv). simpl in Hiff.
    apply Hiff.
    + unfold fits_int. lia.
    + right. split; [lia |]. split; [lia |]. reflexivity.
  - destruct (layer_accessor_failures new_PythonPSD 0 "raw")
      as (Htype & _).
    apply Htype. left. reflexivity.
Defined.

Lemma mask_placeholder_witness :
  getLayerData (sample_document [sample_layer 2 2 1 BLEND_MODE_NORMAL] None)
    0 "mask"
  = (Ok {| shape := [1; 1; 4]; elems := [0; 0; 0; 255] |},
     sample_document [sample_layer 2 2 1 BLEND_MODE_NORMAL] None).
Proof.
  apply (mask_placeholder
           (sample_document [sample_layer 2 2 1 BLEND_MODE_NORMAL] None) 0).
  - reflexivity.
  - unfold valid_index. simpl. lia.
  - left. simpl. lia.
Defined.

(** Two loaded documents with a merged image on which [getBlend] returns
    no array. The first has the header of a canvas of 30000 x 30000
    pixels: the bytes of its canvas are not counted by an [int] and the
    construction of the buffer throws. The second has a merged image block
    of two bytes for a canvas of 2 x 2 pixels, and the decoding of the
    block fails. *)
Lemma blend_fails_with_image :
  let big := sized_document 30000 30000 [] (Some [0; 0]) in
  let cut := sample_document [] (Some [0; 0]) in
  isLoaded (base big) = true
  ∧ imageData (data (base big)) ≠ None
  ∧ getBlend big = (Throw vector_length_msg, big)
  ∧ isLoaded (base cut) = true
  ∧ imageData (data (base cut)) ≠ None
  ∧ getBlend cut = (Throw size_mismatch_msg, cut)
  ∧ ¬ (∀ self : PythonPSD,
         isLoaded (base self) = true →
         imageData (data (base self)) ≠ None →
         ∃ array,
           (getBlend self).1 = Ok array
           ∧ shape array = [hd_height (header (data (base self)));
                            hd_width (header (data (base self))); 4]).
Proof.
  cbn zeta.
  assert (Hbig : getBlend (sized_document 30000 30000 [] (Some [0; 0]))
                 = (Throw vector_length_msg,
                    sized_document 30000 30000 [] (Some [0; 0])))
    by (by vm_compute).
  split; [done |]. split; [done |]. split; [exact Hbig |].
  split; [done |]. split; [done |]. split; [by vm_compute |].
  intros Hall.
  destruct (Hall (sized_document 30000 30000 [] (Some [0; 0])) eq_refl)
    as (array & Hcall & _); [done |].
  rewrite Hbig in Hcall. discriminate Hcall.
Qed.

Lemma getBlend_cases_witness :
  getBlend new_PythonPSD = (Throw not_loaded_msg, new_PythonPSD)
  ∧ getBlend (sample_document [] None)
    = (Throw no_composite_msg, sample_document [] None)
  ∧ getBlend (sample_document [] (Some red_2x2))
    = (Ok {| shape := [2; 2; 4];
             elems := [0; 0; 255; 255; 0; 0; 255; 255;
                       0; 0; 255; 255; 0; 0; 255; 255] |},
       sample_document [] (Some red_2x2)).
Proof.
  split; [| split].
  - apply (proj1 (getBlend_cases new_PythonPSD)). reflexivity.
  - apply (proj1 (proj2 (getBlend_cases (sample_document [] None))));
      reflexivity.
  - assert (Himg : imageData (data (base (sample_document []
                                            (Some red_2x2)))) ≠ None)
      by discriminate.
    assert (Hw : 0 < hd_width (header (data (base (sample_document []
                                                     (Some red_2x2))))))
      by (simpl; lia).
    assert (Hh : 0 < hd_height (header (data (base (sample_document []
                                                      (Some red_2x2))))))
      by (simpl; lia).
    assert (Hfits : fits_int
              (hd_width (header (data (base (sample_document []
                                               (Some red_2x2))))) * 4
               * hd_height (header (data (base (sample_document []
                                                  (Some red_2x2)))))))
      by (unfold fits_int; simpl; lia).
    rewrite (proj2 (proj2 (getBlend_cases
                             (sample_document [] (Some red_2x2))))
               eq_refl Himg Hw Hh Hfits).
    vm_compute. reflexivity.
Defined.



(** With the renderer that counts its calls, which is not pure, the
    bindings pass the change of the document on: the second of two raw
    calls on the same layer, made on the object the first call leaves,
    returns an array that differs from the first in its first byte. *)
Example raw_twice_differs_when_not_pure :
  let doc := sample_document [sample_layer 2 2 1 BLEND_MODE_NORMAL] None in
  let first := @getLayerData counting_base doc 0 "raw" in
  let second := @getLayerData counting_base first.2 0 "raw" in
  ¬ @renderer_pure counting_base
  ∧ first.1
    = Ok {| shape := [2; 2; 4];
            elems := [0; 0; 0; 0; 0; 0; 0; 0; 0; 0; 0; 0; 0; 0; 0; 0] |}
  ∧ second.1
    = Ok {| shape := [2; 2; 4];
            elems := [1; 0; 0; 0; 0; 0; 0; 0; 0; 0; 0; 0; 0; 0; 0; 0] |}
  ∧ first.1 ≠ second.1.
Proof.
  cbn zeta. split.
  - intros Hpure.
    specialize (Hpure emptyData (sample_layer 2 2 1 BLEND_MODE_NORMAL)
                  BGRA_LE 8 IMAGE_MODE_IMAGE []).
    vm_compute in Hpure. discriminate Hpure.
  - split; [by vm_compute |]. split; [by vm_compute |].
    vm_compute. intros Heq. discriminate Heq.
Qed.

Lemma other_mode_is_maskedimage_witness :
  getLayerData (sample_document [sample_layer 2 2 1 BLEND_MODE_NORMAL] None)
    0 ""
  = getLayerData (sample_document [sample_layer 2 2 1 BLEND_MODE_NORMAL] None)
      0 default_mode
  ∧ getLayerData (sample_document [sample_layer 2 2 1 BLEND_MODE_NORMAL] None)
      0 "masked"
    = delivered (sample_document [sample_layer 2 2 1 BLEND_MODE_NORMAL] None)
        2 2
        (getLayerImage
           (data (base (sample_document
                          [sample_layer 2 2 1 BLEND_MODE_NORMAL] None)))
           (sample_layer 2 2 1 BLEND_MODE_NORMAL) BGRA_LE 8
           IMAGE_MODE_MASKEDIMAGE (replicate 16 0)).
Proof.
  assert (Hempty : "" ≠ "mask" ∧ "" ≠ "raw") by (split; discriminate).
  assert (Hmasked : "masked" ≠ "mask" ∧ "masked" ≠ "raw")
    by (split; discriminate).
  assert (Hv : valid_index
                 (sample_document [sample_layer 2 2 1 BLEND_MODE_NORMAL] None)
                 0) by (unfold valid_index; simpl; lia).
  assert (Hfits : fits_int (2 * 4 * 2)) by (unfold fits_int; lia).
  split.
  - exact (proj1 (other_mode_is_maskedimage
                    (sample_document [sample_layer 2 2 1 BLEND_MODE_NORMAL]
                       None) 0 "" (proj1 Hempty) (proj2 Hempty))).
  - apply (proj1 (proj2 (other_mode_is_maskedimage
                           (sample_document
                              [sample_layer 2 2 1 BLEND_MODE_NORMAL] None)
                           0 "masked" (proj1 Hmasked) (proj2 Hmasked)))
             eq_refl Hv); [simpl; lia | simpl; lia | exact Hfits].
Defined.

Example mask_mode_with_mask :
  (getLayerData
     (sample_document
        [ {| lay_top := 0; lay_left := 0; lay_bottom := 2; lay_right := 2;
             lay_width := 2; lay_height := 2;
             lay_opacity := 255; lay_fill_opacity := 255;
             lay_channels := [mk_ChannelInfo (-2) 3];
             lay_blendMode := BLEND_MODE_NORMAL;
             lay_layerType := LAYER_TYPE_NORMAL;
             lay_flags := 8; lay_layerName := "m";
             lay_layerNameUnicode := [];
             lay_clipping := 0; lay_layerId := 4; lay_parent := None;
             lay_layerComps := [];
             lay_layerMask := mk_LayerMask 0 0 1 1 255 |} ] None)
     0 "mask").1
  = Ok {| shape := [1; 1; 4]; elems := [0; 0; 0; 255] |}.
Proof. vm_compute. done. Qed.

(** ** The further properties on the sample documents *)

Lemma sample_resources_valid_0 : valid_index sample_resources 0.
Proof. unfold valid_index. simpl. lia. Qed.

Lemma sample_resources_valid_1 : valid_index sample_resources 1.
Proof. unfold valid_index. simpl. lia. Qed.

Lemma basic_info_loaded_witness : prop_layer_count sample_resources = 2.
Proof.
  destruct (basic_info_loaded sample_resources eq_refl)
    as (_ & _ & _ & _ & _ & _ & Hcount).
  exact Hcount.
Defined.

Lemma layer_count_bounds_accessors_witness :
  is_error (getLayerInfo sample_resources 1) = false.
Proof.
  destruct (layer_count_bounds_accessors sample_resources 1)
    as (_ & _ & Hinfo).
  apply Hinfo.
  assert (Hcount : prop_layer_count sample_resources = 2) by reflexivity.
  rewrite Hcount. lia.
Defined.

Lemma loadFromBytes_success_witness :
  fileData (loadFromBytes new_PythonPSD header_2x2).2 = header_2x2.
Proof.
  destruct (loadFromBytes_success new_PythonPSD header_2x2)
    as (_ & _ & Hstate).
  exact (proj2 (Hstate eq_refl)).
Defined.

Lemma layer_name_precedence_witness :
  ∃ name,
    getLayerName sample_resources 0 = Ok name
    ∧ name = wstring_to_string [99; 104].
Proof.
  destruct (layer_name_precedence sample_resources 0 eq_refl
              sample_resources_valid_0)
    as (name & info & Hname & Hunicode & _).
  exists name. split; [exact Hname |]. apply Hunicode. discriminate.
Defined.

Lemma pin_light_not_named : BLEND_MODE_PIN_LIGHT ∉ named_modes.
Proof.
  unfold named_modes. rewrite !elem_of_cons, elem_of_nil.
  intros Hin. repeat destruct Hin as [Hin | Hin]; done.
Qed.

Lemma blend_name_identifies_named_witness :
  convBlendModeToString BLEND_MODE_PIN_LIGHT = "normal".
Proof.
  apply (proj2 (blend_name_identifies_named BLEND_MODE_PIN_LIGHT
                  BLEND_MODE_NORMAL)).
  right. exact pin_light_not_named.
Defined.

Lemma layer_info_keys_present_witness :
  ∃ info,
    getLayerInfo sample_resources 0 = Ok info
    ∧ info !! "group_layer_id" = Some (PyInt (-1)).
Proof.
  destruct (layer_info_keys_present sample_resources 0 eq_refl
              sample_resources_valid_0)
    as (info & Hget & _ & Hgroup & _).
  exists info. split; [exact Hget | exact Hgroup].
Defined.


Lemma guides_partition_witness :
  ∃ d,
    getGuides sample_resources = (Ok (PyDict d), sample_resources)
    ∧ d !! "vertical" = Some (PyList [PyInt 10; PyInt 30])
    ∧ d !! "horizontal" = Some (PyList [PyInt 20]).
Proof.
  destruct (proj2 (guides_partition sample_resources eq_refl) eq_refl)
    as (d & v & h & Hget & Hv & Hh & _ & _ & Hveq & Hheq & _).
  exists d. split; [exact Hget |].
  rewrite Hv, Hh, Hveq, Hheq. split; reflexivity.
Defined.

Lemma slices_listing_witness :
  ∃ d l,
    getSlices sample_resources = (Ok (PyDict d), sample_resources)
    ∧ d !! "slices" = Some (PyList l)
    ∧ length l = 2%nat.
Proof.
  destruct (proj2 (slices_listing sample_resources eq_refl) eq_refl)
    as (d & l & Hget & _ & _ & _ & _ & _ & Hl & Hlen & _).
  exists d, l. split; [exact Hget |]. split; [exact Hl | exact Hlen].
Defined.

Lemma slice_color_argb_witness :
  ∃ entry,
    sliceDict (sample_slice 2 127 255 255 255 "b") = PyDict entry
    ∧ entry !! "color" = Some (PyInt 2147483647).
Proof.
  destruct (slice_color_argb (sample_slice 2 127 255 255 255 "b"))
    as (entry & color & Hdict & Hcolor & Hvalue & _);
    try (simpl; lia).
  exists entry. split; [exact Hdict |]. rewrite Hcolor, Hvalue. reflexivity.
Defined.

(** A slice of the colour 255, 16, 32, 48: the four bytes fill the 32 bits
    of an [int], whose sign bit the alpha sets, and the colour reported
    is negative. *)
Example slice_color_opaque :
  ∃ entry,
    sliceDict (sample_slice 3 255 16 32 48 "c") = PyDict entry
    ∧ entry !! "color" = Some (PyInt (-15720400)).
Proof. eexists. split; [reflexivity |]. by vm_compute. Qed.

Lemma layer_comps_listing_witness :
  ∃ d l,
    getLayerComp sample_resources = (Ok (PyDict d), sample_resources)
    ∧ d !! "last_applied_id" = Some (PyInt 2)
    ∧ d !! "comps" = Some (PyList l)
    ∧ length l = 2%nat.
Proof.
  destruct (proj2 (layer_comps_listing sample_resources eq_refl))
    as (d & l & Hget & Hlast & Hl & Hlen & _).
  - discriminate.
  - exists d, l. split; [exact Hget |]. split; [exact Hlast |].
    split; [exact Hl | exact Hlen].
Defined.

Lemma layer_data_shape_witness :
  ∃ height width,
    0 < height ∧ 0 < width
    ∧ [2; 2; 4] = [height; width; 4].
Proof.
  assert (Hcall : (getLayerData sample_resources 0 default_mode).1
                  = Ok {| shape := [2; 2; 4];
                          elems := [0; 0; 0; 255; 0; 0; 0; 255;
                                    0; 0; 0; 255; 0; 0; 0; 255] |})
    by (vm_compute; reflexivity).
  destruct (layer_data_shape sample_resources 0 default_mode _ Hcall)
    as (height & width & Hh & Hw & Hshape & _).
  exists height, width. split; [exact Hh |]. split; [exact Hw | exact Hshape].
Defined.

Lemma layer_data_regions_witness :
  getLayerData sample_resources 0 "mask"
  = (Ok {| shape := [2; 1; 4]; elems := [0; 0; 0; 255; 0; 0; 0; 255] |},
     sample_resources).
Proof.
  assert (Hfits : fits_int (1 * 4 * 2)) by (unfold fits_int; lia).
  rewrite (proj1 (layer_data_regions sample_resources 0 eq_refl
                    sample_resources_valid_0));
    [vm_compute; reflexivity | simpl; lia | simpl; lia | exact Hfits].
Defined.

Lemma sample_resources_in_range :
  ids_in_range (layerList (data (base sample_resources))) 0.
Proof.
  assert (Hn : unassigned (layerList (data (base sample_resources))) = 1%nat)
    by reflexivity.
  unfold ids_in_range. rewrite Hn. split; [lia |]. split; [lia |].
  intros x Hx. unfold layer_ids in Hx. simpl in Hx.
  apply elem_of_cons in Hx as [-> | Hx]; [lia |].
  apply elem_of_cons in Hx as [-> | Hx]; [lia |].
  by apply elem_of_nil in Hx.
Qed.

Lemma assigned_ids_fresh_witness :
  ∃ lay',
    layerList (data (base (assignAutoIds sample_resources 0).2)) !! 1%nat
    = Some lay'
    ∧ 0 ≤ lay_layerId lay'
    ∧ 11 < lay_layerId lay'.
Proof.
  destruct (assigned_ids_fresh sample_resources 0 eq_refl
              sample_resources_in_range 1%nat
              (sample_layer 0 0 (-1) BLEND_MODE_NORMAL) eq_refl eq_refl)
    as (lay' & Hnew & Hpos & _ & Hold & _).
  exists lay'. split; [exact Hnew |]. split; [exact Hpos |].
  apply Hold. unfold layer_ids. simpl. apply elem_of_cons. by left.
Defined.

Lemma sample_resources_ids_distinct (i j : nat) (l1 l2 : LayerInfo) :
  layerList (data (base sample_resources)) !! i = Some l1 →
  layerList (data (base sample_resources)) !! j = Some l2 →
  lay_layerId l1 = lay_layerId l2 → lay_layerId l1 ≠ -1 → i = j.
Proof.
  destruct i as [| [| i]], j as [| [| j]]; simpl;
    intros H1 H2 Heq Hne; try done;
    injection H1 as <-; injection H2 as <-; simpl in *; done.
Qed.

Lemma assigned_ids_distinct_witness :
  NoDup (layer_ids
           (layerList (data (base (assignAutoIds sample_resources 0).2)))).
Proof.
  apply (assigned_ids_distinct sample_resources 0 eq_refl
           sample_resources_in_range).
  exact sample_resources_ids_distinct.
Defined.

(** The ids the bindings give wrap around as the values of [int] do: from
    the id 2147483647 of a layer and the id -2147483648 of another, the
    layer without an id gets the id -2147483648 a second time. *)
Example assigned_id_repeated_beyond_int :
  layer_ids (layerList (data (base (assignAutoIds
    (sample_document [ sample_layer 2 2 (-2147483648) BLEND_MODE_NORMAL;
                       sample_layer 2 2 2147483647 BLEND_MODE_NORMAL;
                       sample_layer 2 2 (-1) BLEND_MODE_NORMAL ] None)
    0).2)))
  = [-2147483648; 2147483647; -2147483648].
Proof. by vm_compute. Qed.

Lemma sample_resources_ids_int (x : Z) :
  x ∈ layer_ids (layerList (data (base sample_resources))) → x ≤ 2147483647.
Proof.
  unfold layer_ids. simpl. intros Hx.
  apply elem_of_cons in Hx as [-> | Hx]; [lia |].
  apply elem_of_cons in Hx as [-> | Hx]; [lia |].
  by apply elem_of_nil in Hx.
Qed.

(** The model takes the base id as an integer of any size, the bindings
    as an [int]: beyond the values of [int] the id that follows the base
    id can be -1 itself, which leaves the layer without an id. *)
Example assign_base_beyond_int :
  layer_ids (layerList (data (base (assignAutoIds
    (sample_document [sample_layer 2 2 (-1) BLEND_MODE_NORMAL] None)
    4294967294).2)))
  = [-1].
Proof. by vm_compute. Qed.

Lemma assign_twice_witness :
  assignAutoIds (assignAutoIds sample_resources 0).2 100
  = (Ok 0, (assignAutoIds sample_resources 0).2).
Proof.
  assert (Hn : Z.of_nat (unassigned (layerList (data (base sample_resources))))
               ≤ 2147483647) by (vm_compute; discriminate).
  assert (Hbase : 0 ≤ 2147483647) by lia.
  destruct (assign_twice sample_resources 0 100 eq_refl Hbase
              sample_resources_ids_int Hn) as (_ & _ & Hcall).
  exact Hcall.
Defined.

Lemma assign_keeps_rest_witness :
  getLayerName (assignAutoIds sample_resources 0).2 1
  = getLayerName sample_resources 1.
Proof.
  destruct (assign_keeps_rest sample_resources 0 1 eq_refl)
    as (_ & _ & Hname).
  exact Hname.
Defined.

Example sample_resources_after_assign :
  layer_ids (layerList (data (base (assignAutoIds sample_resources 0).2)))
  = [11; 12].
Proof. reflexivity. Qed.

Lemma blend_shape_matches_properties_witness :
  [2; 2; 4]
  = [prop_height (sample_document [] (Some red_2x2));
     prop_width (sample_document [] (Some red_2x2)); 4].
Proof.
  assert (Hcall : (getBlend (sample_document [] (Some red_2x2))).1
                  = Ok {| shape := [2; 2; 4];
                          elems := [0; 0; 255; 255; 0; 0; 255; 255;
                                    0; 0; 255; 255; 0; 0; 255; 255] |})
    by (vm_compute; reflexivity).
  destruct (blend_shape_matches_properties _ _ Hcall) as (_ & _ & Hshape).
  exact Hshape.
Defined.

Lemma layer_data_shape_matches_info_witness :
  ∃ info,
    getLayerInfo sample_resources 0 = Ok info
    ∧ info !! "height" = Some (PyInt 2)
    ∧ info !! "width" = Some (PyInt 2).
Proof.
  assert (Hmode : "raw" ≠ "mask") by discriminate.
  assert (Hcall : (getLayerData sample_resources 0 "raw").1
                  = Ok {| shape := [2; 2; 4];
                          elems := [0; 0; 0; 255; 0; 0; 0; 255;
                                    0; 0; 0; 255; 0; 0; 0; 255] |})
    by (vm_compute; reflexivity).
  destruct (layer_data_shape_matches_info sample_resources 0 "raw" _ Hmode
              Hcall)
    as (info & height & width & Hget & Hh & Hw & Hshape).
  injection Hshape as <- <-.
  exists info. split; [exact Hget |]. split; [exact Hh | exact Hw].
Defined.
